(** * decode_audio: the call-sequencing demo over the Tao C API

    The program [crates/tao-ffi/examples/decode_audio.c] contains one
    function, [main], which drives a prebuilt library through [extern]
    entry points.  The development below embeds [main] as a function in a
    small monad that threads the state of the linked library, records every
    boundary call (with its arguments and its results) in a trace, and can
    stop early when the fuel given to the two [while (1)] loops is used up.

    The library behind the boundary is a parameter: every theorem about
    [main] holds for all implementations of the [extern] declarations. *)

From Stdlib Require Import ZArith List String Bool Lia.
Import ListNotations.

Local Open Scope string_scope.
Local Open Scope Z_scope.
Local Open Scope list_scope.

(* ================================================================== *)
(** ** Constants and C-level data *)

(** Status codes ([#define]s, lines 24-27). *)
Definition TAO_OK : Z := 0.
Definition TAO_ERROR : Z := -1.
Definition TAO_EOF : Z := -2.
Definition TAO_NEED_MORE_DATA : Z := -3.

(** Media types (lines 30-31). *)
Definition TAO_MEDIA_TYPE_AUDIO : Z := 1.
Definition TAO_MEDIA_TYPE_VIDEO : Z := 2.

(** The four handle types are opaque: a handle is the address it holds. *)
Definition ptr : Type := Z.
Definition NULL : ptr := 0.

(** A [const char*]: [None] is the null pointer. *)
Definition cstr : Type := option string.

(** Two's-complement wrap-around of a [bits]-wide signed integer. *)
Definition wrap (bits : Z) (x : Z) : Z :=
  (x + 2 ^ (bits - 1)) mod 2 ^ bits - 2 ^ (bits - 1).

(** [x++] on an [int]. *)
Definition int_incr (x : Z) : Z := wrap 32 (x + 1).

(** [x += y] on an [int64_t]. *)
Definition int64_add (x y : Z) : Z := wrap 64 (x + y).

(* ================================================================== *)
(** ** Boundary events *)

(** An argument handed to [printf] after the format string. *)
Inductive parg : Type :=
| PInt (n : Z)
| PStr (s : cstr).

(** One constructor per [extern] declaration (lines 40-80), carrying the
    arguments and then what the call gave back, plus the two output
    calls of [<stdio.h>] the program uses.  For the two calls with an out
    parameter ([tao_format_read_packet], [tao_codec_receive_frame]) the
    last field is the handle found in the caller's variable after the
    call; the caller always sets it to [NULL] before. *)
Inductive event : Type :=
| Ev_tao_version (r : cstr)
| Ev_tao_version_int (r : Z)
| Ev_tao_build_info (r : cstr)
| Ev_tao_init
| Ev_tao_shutdown
| Ev_tao_format_open_input (filename : cstr) (r : ptr)
| Ev_tao_format_read_packet (ctx : ptr) (r : Z) (packet : ptr)
| Ev_tao_format_get_stream_count (ctx : ptr) (r : Z)
| Ev_tao_format_get_stream_codec_id (ctx : ptr) (stream_index : Z) (r : Z)
| Ev_tao_format_get_stream_media_type (ctx : ptr) (stream_index : Z) (r : Z)
| Ev_tao_format_close (ctx : ptr)
| Ev_tao_codec_create_decoder (codec_id : Z) (r : ptr)
| Ev_tao_codec_open_decoder (ctx : ptr) (sample_rate channels : Z)
    (extra_data : ptr) (extra_data_size : Z) (r : Z)
| Ev_tao_codec_send_packet (ctx : ptr) (packet : ptr) (r : Z)
| Ev_tao_codec_receive_frame (ctx : ptr) (r : Z) (frame : ptr)
| Ev_tao_codec_close (ctx : ptr)
| Ev_tao_packet_data (pkt : ptr) (r : ptr)
| Ev_tao_packet_size (pkt : ptr) (r : Z)
| Ev_tao_packet_pts (pkt : ptr) (r : Z)
| Ev_tao_packet_stream_index (pkt : ptr) (r : Z)
| Ev_tao_packet_free (pkt : ptr)
| Ev_tao_frame_is_audio (frame : ptr) (r : Z)
| Ev_tao_frame_is_video (frame : ptr) (r : Z)
| Ev_tao_frame_nb_samples (frame : ptr) (r : Z)
| Ev_tao_frame_sample_rate (frame : ptr) (r : Z)
| Ev_tao_frame_width (frame : ptr) (r : Z)
| Ev_tao_frame_height (frame : ptr) (r : Z)
| Ev_tao_frame_data (frame : ptr) (plane : Z) (r : ptr)
| Ev_tao_frame_linesize (frame : ptr) (plane : Z) (r : Z)
| Ev_tao_frame_free (frame : ptr)
| Ev_printf (format : string) (args : list parg)
| Ev_fprintf_stderr (format : string) (args : list parg).

Definition trace : Type := list event.

(* ================================================================== *)
(** ** The library behind the boundary *)

(** What the linked library does at each [extern] entry point that [main]
    calls, as a function of the library's state; a library whose answers
    depend on files or devices is covered by a state that holds them.
    For [tao_format_read_packet] and [tao_codec_receive_frame] the second
    component of the result is what the call leaves in the caller's
    variable, which holds [NULL] before the call.  The entry points that
    are declared but never called need no behaviour. *)
Class TaoLib (World : Type) : Type := {
  extern_tao_version : World -> cstr * World;
  extern_tao_build_info : World -> cstr * World;
  extern_tao_init : World -> World;
  extern_tao_shutdown : World -> World;
  extern_tao_format_open_input : cstr -> World -> ptr * World;
  extern_tao_format_read_packet : ptr -> World -> (Z * ptr) * World;
  extern_tao_format_get_stream_count : ptr -> World -> Z * World;
  extern_tao_format_get_stream_codec_id : ptr -> Z -> World -> Z * World;
  extern_tao_format_get_stream_media_type : ptr -> Z -> World -> Z * World;
  extern_tao_format_close : ptr -> World -> World;
  extern_tao_codec_create_decoder : Z -> World -> ptr * World;
  extern_tao_codec_open_decoder :
    ptr -> Z -> Z -> ptr -> Z -> World -> Z * World;
  extern_tao_codec_send_packet : ptr -> ptr -> World -> Z * World;
  extern_tao_codec_receive_frame : ptr -> World -> (Z * ptr) * World;
  extern_tao_codec_close : ptr -> World -> World;
  extern_tao_packet_stream_index : ptr -> World -> Z * World;
  extern_tao_packet_free : ptr -> World -> World;
  extern_tao_frame_is_audio : ptr -> World -> Z * World;
  extern_tao_frame_nb_samples : ptr -> World -> Z * World;
  extern_tao_frame_sample_rate : ptr -> World -> Z * World;
  extern_tao_frame_free : ptr -> World -> World
}.

(* ================================================================== *)
(** ** The monad of the program *)

(** A computation runs from a library state and gives the calls it made,
    the library state it left, and its value; the value is [None] when a
    loop ran out of fuel, that is when the program is still running. *)
Definition M (World A : Type) : Type :=
  World -> trace * World * option A.

Definition run_trace {World A} (r : trace * World * option A) : trace :=
  fst (fst r).
Definition run_world {World A} (r : trace * World * option A) : World :=
  snd (fst r).
Definition run_value {World A} (r : trace * World * option A) : option A :=
  snd r.

Definition pure {World A} (a : A) : M World A :=
  fun w => ([], w, Some a).

Definition bind {World A B} (m : M World A) (k : A -> M World B) : M World B :=
  fun w =>
    let '(t1, w1, o) := m w in
    match o with
    | None => (t1, w1, None)
    | Some a => let '(t2, w2, b) := k a w1 in (t1 ++ t2, w2, b)
    end.

Definition out_of_fuel {World A} : M World A :=
  fun w => ([], w, None).

(** A call that returns a value, and a call that returns [void]. *)
Definition call {World R} (f : World -> R * World) (ev : R -> event)
  : M World R :=
  fun w => let '(r, w') := f w in ([ev r], w', Some r).

Definition call_void {World} (f : World -> World) (ev : event)
  : M World unit :=
  fun w => ([ev], f w, Some tt).

(** Output leaves the library alone. *)
Definition output {World} (ev : event) : M World unit :=
  fun w => ([ev], w, Some tt).

Declare Scope prog_scope.
Delimit Scope prog_scope with prog.
Notation "x <- m ;; k" := (bind m (fun x => k))
  (at level 61, m at next level, right associativity) : prog_scope.
Notation "' pat <- m ;; k" := (bind m (fun x => match x with pat => k end))
  (at level 61, pat pattern, m at next level, right associativity)
  : prog_scope.
Notation "m ;; k" := (bind m (fun _ => k))
  (at level 61, right associativity) : prog_scope.

(** How a loop body ends: at its closing brace or at [continue], or at
    [break]. *)
Inductive flow : Type := Continue | Break.

(** [while (1) { body }] over the variables [S] the body updates. *)
Fixpoint while_1 {World S} (fuel : nat) (body : S -> M World (flow * S))
  (s : S) : M World S :=
  match fuel with
  | O => out_of_fuel
  | Datatypes.S fuel' =>
      bind (body s) (fun r =>
        match r with
        | (Break, s') => pure s'
        | (Continue, s') => while_1 fuel' body s'
        end)
  end.

(* ================================================================== *)
(** ** The program *)

(** The three counters of the decode loop (lines 156-158). *)
Record counters : Type := {
  packet_count : Z;
  frame_count : Z;
  total_samples : Z
}.

Section Program.

Context {World : Type} {lib : TaoLib World}.

Local Open Scope prog_scope.
Local Abbreviation M := (M World).

(** *** The boundary calls, as [main] writes them *)

Definition tao_version : M cstr :=
  call extern_tao_version Ev_tao_version.
Definition tao_build_info : M cstr :=
  call extern_tao_build_info Ev_tao_build_info.
Definition tao_init : M unit :=
  call_void extern_tao_init Ev_tao_init.
Definition tao_shutdown : M unit :=
  call_void extern_tao_shutdown Ev_tao_shutdown.
Definition tao_format_open_input (filename : cstr) : M ptr :=
  call (extern_tao_format_open_input filename)
       (Ev_tao_format_open_input filename).
Definition tao_format_read_packet (ctx : ptr) : M (Z * ptr) :=
  call (extern_tao_format_read_packet ctx)
       (fun r => Ev_tao_format_read_packet ctx (fst r) (snd r)).
Definition tao_format_get_stream_count (ctx : ptr) : M Z :=
  call (extern_tao_format_get_stream_count ctx)
       (Ev_tao_format_get_stream_count ctx).
Definition tao_format_get_stream_codec_id (ctx : ptr) (i : Z) : M Z :=
  call (extern_tao_format_get_stream_codec_id ctx i)
       (Ev_tao_format_get_stream_codec_id ctx i).
Definition tao_format_get_stream_media_type (ctx : ptr) (i : Z) : M Z :=
  call (extern_tao_format_get_stream_media_type ctx i)
       (Ev_tao_format_get_stream_media_type ctx i).
Definition tao_format_close (ctx : ptr) : M unit :=
  call_void (extern_tao_format_close ctx) (Ev_tao_format_close ctx).
Definition tao_codec_create_decoder (codec_id : Z) : M ptr :=
  call (extern_tao_codec_create_decoder codec_id)
       (Ev_tao_codec_create_decoder codec_id).
Definition tao_codec_open_decoder (ctx : ptr) (sample_rate channels : Z)
  (extra_data : ptr) (extra_data_size : Z) : M Z :=
  call (extern_tao_codec_open_decoder ctx sample_rate channels
          extra_data extra_data_size)
       (Ev_tao_codec_open_decoder ctx sample_rate channels
          extra_data extra_data_size).
Definition tao_codec_send_packet (ctx packet : ptr) : M Z :=
  call (extern_tao_codec_send_packet ctx packet)
       (Ev_tao_codec_send_packet ctx packet).
Definition tao_codec_receive_frame (ctx : ptr) : M (Z * ptr) :=
  call (extern_tao_codec_receive_frame ctx)
       (fun r => Ev_tao_codec_receive_frame ctx (fst r) (snd r)).
Definition tao_codec_close (ctx : ptr) : M unit :=
  call_void (extern_tao_codec_close ctx) (Ev_tao_codec_close ctx).
Definition tao_packet_stream_index (pkt : ptr) : M Z :=
  call (extern_tao_packet_stream_index pkt)
       (Ev_tao_packet_stream_index pkt).
Definition tao_packet_free (pkt : ptr) : M unit :=
  call_void (extern_tao_packet_free pkt) (Ev_tao_packet_free pkt).
Definition tao_frame_is_audio (frame : ptr) : M Z :=
  call (extern_tao_frame_is_audio frame) (Ev_tao_frame_is_audio frame).
Definition tao_frame_nb_samples (frame : ptr) : M Z :=
  call (extern_tao_frame_nb_samples frame)
       (Ev_tao_frame_nb_samples frame).
Definition tao_frame_sample_rate (frame : ptr) : M Z :=
  call (extern_tao_frame_sample_rate frame)
       (Ev_tao_frame_sample_rate frame).
Definition tao_frame_free (frame : ptr) : M unit :=
  call_void (extern_tao_frame_free frame) (Ev_tao_frame_free frame).

(** Format strings are kept as the source writes them, escape
    sequences included. *)
Definition printf (format : string) (args : list parg) : M unit :=
  output (Ev_printf format args).
Definition fprintf_stderr (format : string) (args : list parg) : M unit :=
  output (Ev_fprintf_stderr format args).

(** *** [for (int i = 0; i < stream_count; i++)], lines 116-125

    The loop runs [max 0 stream_count] times, so it recurses on the
    number [n] of iterations left; [i] never overflows as it stays
    below [stream_count]. *)
Fixpoint for_streams (n : nat) (fmt_ctx : ptr) (i : Z)
  (audio_stream audio_codec_id : Z) : M (Z * Z) :=
  match n with
  | O => pure (audio_stream, audio_codec_id)
  | S n' =>
      media_type <- tao_format_get_stream_media_type fmt_ctx i ;;
      codec_id <- tao_format_get_stream_codec_id fmt_ctx i ;;
      printf "  流 #%d: 媒体类型=%d, 编解码器ID=%d\n"
             [PInt i; PInt media_type; PInt codec_id] ;;
      if (media_type =? TAO_MEDIA_TYPE_AUDIO) && (audio_stream <? 0) then
        for_streams n' fmt_ctx (i + 1) i codec_id
      else
        for_streams n' fmt_ctx (i + 1) audio_stream audio_codec_id
  end.

(** *** The body of the inner [while (1)], lines 190-215 *)
Definition receive_body (dec_ctx : ptr) (c : counters)
  : M (flow * counters) :=
  '(ret, frame) <- tao_codec_receive_frame dec_ctx ;;
  if (ret =? TAO_NEED_MORE_DATA) || (ret =? TAO_EOF) then
    pure (Break, c)
  else if negb (ret =? TAO_OK) || (frame =? NULL) then
    pure (Break, c)
  else
    is_audio <- tao_frame_is_audio frame ;;
    c <- (if negb (is_audio =? 0) then
            nb_samples <- tao_frame_nb_samples frame ;;
            sample_rate <- tao_frame_sample_rate frame ;;
            let c := {| packet_count := packet_count c;
                        frame_count := int_incr (frame_count c);
                        total_samples :=
                          int64_add (total_samples c) nb_samples |} in
            (if frame_count c <=? 5 then
               printf "  帧 #%d: %d 采样 @ %d Hz (PTS: -)\n"
                      [PInt (frame_count c); PInt nb_samples;
                       PInt sample_rate]
             else pure tt) ;;
            pure c
          else pure c) ;;
    tao_frame_free frame ;;
    pure (Continue, c).

(** *** The body of the outer [while (1)], lines 160-216 *)
Definition decode_body (fuel : nat) (fmt_ctx dec_ctx : ptr)
  (audio_stream : Z) (c : counters) : M (flow * counters) :=
  '(ret, pkt) <- tao_format_read_packet fmt_ctx ;;
  if ret =? TAO_EOF then
    printf "到达文件末尾\n" [] ;;
    pure (Break, c)
  else if negb (ret =? TAO_OK) || (pkt =? NULL) then
    fprintf_stderr "读取数据包错误: %d\n" [PInt ret] ;;
    pure (Break, c)
  else
    stream_index <- tao_packet_stream_index pkt ;;
    if negb (stream_index =? audio_stream) then
      tao_packet_free pkt ;;
      pure (Continue, c)
    else
      let c := {| packet_count := int_incr (packet_count c);
                  frame_count := frame_count c;
                  total_samples := total_samples c |} in
      ret <- tao_codec_send_packet dec_ctx pkt ;;
      tao_packet_free pkt ;;
      if negb (ret =? TAO_OK) then
        pure (Continue, c)
      else
        c <- while_1 fuel (receive_body dec_ctx) c ;;
        pure (Continue, c).

(** *** [main], lines 84-229

    [argv] is the argument vector, [argc] its length; [argv[argc]] is
    the null pointer.  [fuel] bounds the turns of the decode loop and the
    turns of each drain loop; the value is [None] when it runs out. *)
Definition main (fuel : nat) (argv : list string) : M Z :=
  let argc := Z.of_nat (List.length argv) in
  if argc <? 2 then
    printf "用法: %s <输入文件>\n" [PStr (nth_error argv 0)] ;;
    printf "\n" [] ;;
    printf "示例: %s input.wav\n" [PStr (nth_error argv 0)] ;;
    pure 1
  else
    let input_file := nth_error argv 1 in
    tao_init ;;
    version <- tao_version ;;
    printf "Tao 版本: %s\n" [PStr version] ;;
    build_info <- tao_build_info ;;
    printf "构建信息: %s\n" [PStr build_info] ;;
    printf "\n" [] ;;
    printf "打开文件: %s\n" [PStr input_file] ;;
    fmt_ctx <- tao_format_open_input input_file ;;
    if fmt_ctx =? NULL then
      fprintf_stderr "错误: 无法打开输入文件\n" [] ;;
      tao_shutdown ;;
      pure 1
    else
      stream_count <- tao_format_get_stream_count fmt_ctx ;;
      printf "流数量: %d\n" [PInt stream_count] ;;
      '(audio_stream, audio_codec_id) <-
        for_streams (Z.to_nat stream_count) fmt_ctx 0 (-1) (-1) ;;
      if audio_stream <? 0 then
        fprintf_stderr "错误: 未找到音频流\n" [] ;;
        tao_format_close fmt_ctx ;;
        tao_shutdown ;;
        pure 1
      else
        printf "使用音频流 #%d (编解码器ID=%d)\n\n"
               [PInt audio_stream; PInt audio_codec_id] ;;
        dec_ctx <- tao_codec_create_decoder audio_codec_id ;;
        if dec_ctx =? NULL then
          fprintf_stderr "错误: 无法创建解码器\n" [] ;;
          tao_format_close fmt_ctx ;;
          tao_shutdown ;;
          pure 1
        else
          ret <- tao_codec_open_decoder dec_ctx 44100 2 NULL 0 ;;
          if negb (ret =? TAO_OK) then
            fprintf_stderr "错误: 无法打开解码器\n" [] ;;
            tao_codec_close dec_ctx ;;
            tao_format_close fmt_ctx ;;
            tao_shutdown ;;
            pure 1
          else
            c <- while_1 fuel
                   (decode_body fuel fmt_ctx dec_ctx audio_stream)
                   {| packet_count := 0; frame_count := 0;
                      total_samples := 0 |} ;;
            printf "\n解码完成:\n" [] ;;
            printf "  数据包: %d\n" [PInt (packet_count c)] ;;
            printf "  帧: %d\n" [PInt (frame_count c)] ;;
            printf "  总采样: %lld\n" [PInt (total_samples c)] ;;
            tao_codec_close dec_ctx ;;
            tao_format_close fmt_ctx ;;
            tao_shutdown ;;
            pure 0.

End Program.

(** [m'] finishes as [m] does: wherever [m] returns, [m'] makes the
    same calls and returns the same. *)
Definition finishes_as {World A} (m m' : M World A) : Prop :=
  forall w t w' v, m w = (t, w', Some v) -> m' w = (t, w', Some v).

(* ================================================================== *)
(** ** Trace monitors

    A monitor reads a trace one call at a time; [None] is a violation. *)

Section Monitor.

Context {St : Type}.
Variable step : St -> event -> option St.

Fixpoint run_monitor (s : St) (t : trace) : option St :=
  match t with
  | [] => Some s
  | e :: t' =>
      match step s e with
      | Some s' => run_monitor s' t'
      | None => None
      end
  end.

(** [sat m s Q]: from every library state, the calls of [m] take the
    monitor from [s] to a state that [Q] relates to the value of [m]. *)
Definition sat {World A} (m : M World A) (s : St)
  (Q : option A -> St -> Prop) : Prop :=
  forall w, exists s',
    run_monitor s (run_trace (m w)) = Some s' /\ Q (run_value (m w)) s'.

End Monitor.

(** *** Ownership of handles

    A handle is in the program's hands from the call that gives it out to
    the call that frees it, and the program holds one handle of a kind at
    a time.  The monitor rejects a use or a free of a handle that is not
    held, and a handle given out while another is held; a trace it accepts
    and that ends with empty hands has freed every handle it was given,
    once, and has not touched it afterwards. *)

Inductive action : Type :=
| Acquire (h : ptr)
| Use (h : ptr)
| Release (h : ptr)
| Other.

Section Ownership.

Variable classify : event -> action.

Definition own_step (held : option ptr) (e : event) : option (option ptr) :=
  match classify e, held with
  | Acquire h, None => Some (Some h)
  | Acquire _, Some _ => None
  | Use h, Some h' => if h =? h' then Some held else None
  | Use _, None => None
  | Release h, Some h' => if h =? h' then Some None else None
  | Release _, None => None
  | Other, _ => Some held
  end.

Definition acquires (t : trace) : nat :=
  List.length
    (filter (fun e => match classify e with Acquire _ => true | _ => false end)
            t).

Definition releases (t : trace) : nat :=
  List.length
    (filter (fun e => match classify e with Release _ => true | _ => false end)
            t).

Definition in_hand (held : option ptr) : nat :=
  match held with Some _ => 1 | None => 0 end.

End Ownership.

(** A packet is obtained by a read that returns [TAO_OK] and a packet;
    the five other packet calls and the submission use it. *)
Definition packet_action (e : event) : action :=
  match e with
  | Ev_tao_format_read_packet _ r p =>
      if (r =? TAO_OK) && negb (p =? NULL) then Acquire p else Other
  | Ev_tao_codec_send_packet _ p _ => Use p
  | Ev_tao_packet_data p _ => Use p
  | Ev_tao_packet_size p _ => Use p
  | Ev_tao_packet_pts p _ => Use p
  | Ev_tao_packet_stream_index p _ => Use p
  | Ev_tao_packet_free p => Release p
  | _ => Other
  end.

(** A frame is obtained by a receive that returns [TAO_OK] and a frame. *)
Definition frame_action (e : event) : action :=
  match e with
  | Ev_tao_codec_receive_frame _ r f =>
      if (r =? TAO_OK) && negb (f =? NULL) then Acquire f else Other
  | Ev_tao_frame_is_audio f _ => Use f
  | Ev_tao_frame_is_video f _ => Use f
  | Ev_tao_frame_nb_samples f _ => Use f
  | Ev_tao_frame_sample_rate f _ => Use f
  | Ev_tao_frame_width f _ => Use f
  | Ev_tao_frame_height f _ => Use f
  | Ev_tao_frame_data f _ _ => Use f
  | Ev_tao_frame_linesize f _ _ => Use f
  | Ev_tao_frame_free f => Release f
  | _ => Other
  end.

(** *** Checks on a call given the calls before it

    The monitor state is the history, latest call first; [check h e]
    says whether call [e] may follow history [h]. *)

Definition hist_step (check : trace -> event -> bool) (h : trace)
  (e : event) : option trace :=
  if check h e then Some (e :: h) else None.

(** A trace passes [check] when every call of it does, given the calls
    before it. *)
Definition passes (check : trace -> event -> bool) (t : trace) : Prop :=
  forall pre e post, t = pre ++ e :: post -> check (rev pre) e = true.

(** **** Routing by stream index *)

(** The stream the scan of lines 116-125 settles on: the first stream
    for which the library answered [TAO_MEDIA_TYPE_AUDIO]. *)
Fixpoint selected_stream (h : trace) : option Z :=
  match h with
  | [] => None
  | e :: h' =>
      match selected_stream h' with
      | Some a => Some a
      | None =>
          match e with
          | Ev_tao_format_get_stream_media_type _ i r =>
              if r =? TAO_MEDIA_TYPE_AUDIO then Some i else None
          | _ => None
          end
      end
  end.

Definition is_selected (h : trace) (idx : Z) : bool :=
  match selected_stream h with
  | Some a => idx =? a
  | None => false
  end.

(** Right after the stream index of a packet has been asked: the packet
    is submitted if the answer is the selected stream and freed if not.
    Nowhere else is a packet submitted. *)
Definition routed (h : trace) (e : event) : bool :=
  match h with
  | Ev_tao_packet_stream_index p idx :: _ =>
      if is_selected h idx then
        match e with
        | Ev_tao_codec_send_packet _ p' _ => p' =? p
        | _ => false
        end
      else
        match e with
        | Ev_tao_packet_free p' => p' =? p
        | _ => false
        end
  | _ =>
      match e with
      | Ev_tao_codec_send_packet _ _ _ => false
      | _ => true
      end
  end.

(** **** Draining after a submission *)

(** A receive ends the draining when it returns one of the two signals,
    any other status that is not [TAO_OK], or no frame. *)
Definition receive_stops (r : Z) (frame : ptr) : bool :=
  (r =? TAO_NEED_MORE_DATA) || (r =? TAO_EOF) ||
  negb (r =? TAO_OK) || (frame =? NULL).

(** The decoder that still has frames to give, if any: the one of the
    latest submission or receive, when that was an accepted submission
    or a receive that did not end the draining. *)
Fixpoint must_drain (h : trace) : option ptr :=
  match h with
  | [] => None
  | Ev_tao_codec_send_packet d _ r :: _ =>
      if r =? TAO_OK then Some d else None
  | Ev_tao_codec_receive_frame d r f :: _ =>
      if receive_stops r f then None else Some d
  | _ :: h' => must_drain h'
  end.

(** Reading and submitting wait for the draining to end; a receive is
    part of a draining. *)
Definition drain_ok (h : trace) (e : event) : bool :=
  match e with
  | Ev_tao_format_read_packet _ _ _ =>
      match must_drain h with None => true | Some _ => false end
  | Ev_tao_codec_send_packet _ _ _ =>
      match must_drain h with None => true | Some _ => false end
  | Ev_tao_codec_receive_frame d _ _ =>
      match must_drain h with Some d' => d =? d' | None => false end
  | _ => true
  end.

(** **** Parameters of the decoder *)

Definition is_fixed_open (d : ptr) (e : event) : bool :=
  match e with
  | Ev_tao_codec_open_decoder ctx sample_rate channels extra_data size _ =>
      (ctx =? d) && (sample_rate =? 44100) && (channels =? 2) &&
      (extra_data =? NULL) && (size =? 0)
  | _ => false
  end.

(** A decoder is opened right after it has been created, with the fixed
    arguments, and nowhere else. *)
Definition open_fixed (h : trace) (e : event) : bool :=
  match h with
  | Ev_tao_codec_create_decoder _ d :: _ =>
      if d =? NULL then
        match e with
        | Ev_tao_codec_open_decoder _ _ _ _ _ _ => false
        | _ => true
        end
      else is_fixed_open d e
  | _ =>
      match e with
      | Ev_tao_codec_open_decoder _ _ _ _ _ _ => false
      | _ => true
      end
  end.

(** **** Timestamps *)

(** The frame in the program's hands, if any. *)
Fixpoint frame_in_hand (h : trace) : option ptr :=
  match h with
  | [] => None
  | e :: h' =>
      match frame_action e with
      | Acquire f => Some f
      | Release _ => None
      | _ => frame_in_hand h'
      end
  end.

Definition frame_line : string := "  帧 #%d: %d 采样 @ %d Hz (PTS: -)\n".

Definition is_frame_line (nb_samples sample_rate : Z) (e : event) : bool :=
  match e with
  | Ev_printf format [PInt _; PInt n; PInt r] =>
      String.eqb format frame_line && (n =? nb_samples) &&
      (r =? sample_rate)
  | _ => false
  end.

(** No call asks for a timestamp, and what is written while a frame is
    in hand is the frame line, filled with a counter and with the sample
    count and the sample rate the frame has just given. *)
Definition no_timestamp (h : trace) (e : event) : bool :=
  match e with
  | Ev_tao_packet_pts _ _ => false
  | Ev_printf _ _ | Ev_fprintf_stderr _ _ =>
      match frame_in_hand h with
      | None => true
      | Some f =>
          match h with
          | Ev_tao_frame_sample_rate f2 r :: Ev_tao_frame_nb_samples f1 n :: _ =>
              (f1 =? f) && (f2 =? f) && is_frame_line n r e
          | _ => false
          end
      end
  | _ => true
  end.

(** *** The life of the library and of the two contexts *)

Inductive life : Type :=
| Fresh                               (* before [tao_init] *)
| Up (fmt_ctx dec_ctx : option ptr)   (* initialised; the open contexts *)
| Down.                               (* after [tao_shutdown] *)

Definition created (r : ptr) : option ptr :=
  if r =? NULL then None else Some r.

Definition life_step (s : life) (e : event) : option life :=
  match e with
  | Ev_printf _ _ | Ev_fprintf_stderr _ _ => Some s
  | _ =>
      match s with
      | Fresh =>
          match e with
          | Ev_tao_init => Some (Up None None)
          | _ => None
          end
      | Up fmt_ctx dec_ctx =>
          match e with
          | Ev_tao_init => None
          | Ev_tao_shutdown =>
              match fmt_ctx, dec_ctx with
              | None, None => Some Down
              | _, _ => None
              end
          | Ev_tao_format_open_input _ r =>
              match fmt_ctx with
              | None => Some (Up (created r) dec_ctx)
              | Some _ => None
              end
          | Ev_tao_format_close c =>
              match fmt_ctx with
              | Some c' => if c =? c' then Some (Up None dec_ctx) else None
              | None => None
              end
          | Ev_tao_codec_create_decoder _ r =>
              match dec_ctx with
              | None => Some (Up fmt_ctx (created r))
              | Some _ => None
              end
          | Ev_tao_codec_close c =>
              match dec_ctx with
              | Some c' => if c =? c' then Some (Up fmt_ctx None) else None
              | None => None
              end
          | _ => Some s
          end
      | Down => None
      end
  end.

(** Where [main] must be when it returns, given [argc]. *)
Definition life_at_exit (argc : Z) : life :=
  if argc <? 2 then Fresh else Down.

(** *** The three outcomes of a read, as the loop tells them apart *)

Inductive read_outcome : Type :=
| Success
| EndOfStream
| ReadError.

Definition outcome_of_read (r : Z) (packet : ptr) : read_outcome :=
  if r =? TAO_EOF then EndOfStream
  else if (r =? TAO_OK) && negb (packet =? NULL) then Success
  else ReadError.

(** The claim that a timestamp is asked of every packet obtained. *)
Definition pts_read_on_packets (t : trace) : Prop :=
  forall ctx p,
    In (Ev_tao_format_read_packet ctx TAO_OK p) t -> p <> NULL ->
    exists r, In (Ev_tao_packet_pts p r) t.

(** *** What the proofs keep track of *)

(** The latest call is not a question about a stream index. *)
Definition calm (h : trace) : bool :=
  match h with
  | Ev_tao_packet_stream_index _ _ :: _ => false
  | _ => true
  end.

Definition is_send (e : event) : bool :=
  match e with
  | Ev_tao_codec_send_packet _ _ _ => true
  | _ => false
  end.

(** The stream the scan has settled on when its variable
    [audio_stream] holds [a]. *)
Definition selection (a : Z) : option Z :=
  if a <? 0 then None else Some a.

(** The latest call is not the creation of a decoder. *)
Definition settled (h : trace) : bool :=
  match h with
  | Ev_tao_codec_create_decoder _ _ :: _ => false
  | _ => true
  end.

Definition is_open (e : event) : bool :=
  match e with
  | Ev_tao_codec_open_decoder _ _ _ _ _ _ => true
  | _ => false
  end.

Definition is_output (e : event) : bool :=
  match e with
  | Ev_printf _ _ | Ev_fprintf_stderr _ _ => true
  | _ => false
  end.

(** Counting calls. *)
Definition count (p : event -> bool) (t : trace) : nat :=
  List.length (filter p t).

Definition is_shutdown (e : event) : bool :=
  match e with Ev_tao_shutdown => true | _ => false end.

(** A call of [tao_format_open_input] that gave a context. *)
Definition is_format_open (e : event) : bool :=
  match e with
  | Ev_tao_format_open_input _ r => negb (r =? NULL)
  | _ => false
  end.

Definition is_format_close (e : event) : bool :=
  match e with Ev_tao_format_close _ => true | _ => false end.

(** A call of [tao_codec_create_decoder] that gave a context. *)
Definition is_codec_create (e : event) : bool :=
  match e with
  | Ev_tao_codec_create_decoder _ r => negb (r =? NULL)
  | _ => false
  end.

Definition is_codec_close (e : event) : bool :=
  match e with Ev_tao_codec_close _ => true | _ => false end.

Definition downs (s : life) : nat :=
  match s with Down => 1 | _ => 0 end.

Definition open_formats (s : life) : nat :=
  match s with Up (Some _) _ => 1 | _ => 0 end.

Definition open_codecs (s : life) : nat :=
  match s with Up _ (Some _) => 1 | _ => 0 end.

(* ================================================================== *)
(** ** The demuxer behind [tao_format_read_packet] *)

Module Demuxer.

(** Modelled from the spec: the Packet of section 3, one compressed
    access unit with its byte buffer (whose length is the size), its
    stream index and its presentation timestamp.  The library that
    produces packets is not part of the sources. *)
Record Packet : Type := {
  data : list Byte.byte;
  stream_index : Z;
  pts : Z
}.

(** Modelled from the spec: what the container stores at one position,
    a packet or a structure that cannot be read (the [ReadError] case of
    section 4.1).  The container parser is not part of the sources. *)
Inductive storage : Type :=
| Stored (p : Packet)
| Corrupt.

(** Modelled from the spec: the FormatContext of section 3, an open
    container with its stream table (media type and codec identifier per
    stream) and its read cursor.  The demuxer is not part of the
    sources. *)
Record FormatContext : Type := {
  streams : list (Z * Z);
  units : list storage;
  cursor : nat
}.

(** Modelled from the spec: the three results of [read_packet] in section
    4.1.  The demuxer is not part of the sources. *)
Inductive read_result : Type :=
| Delivered (p : Packet)
| EndOfStream
| ReadError.

Definition advance (ctx : FormatContext) : FormatContext :=
  {| streams := streams ctx; units := units ctx;
     cursor := S (cursor ctx) |}.

(** Modelled from the spec: [read_packet] of section 4.1, which produces
    the next packet in container storage order on each call, signals
    [EndOfStream] when no further packet exists and fails with
    [ReadError] on an unreadable structure.  The spec leaves open whether
    a failed read moves past the unreadable unit (section 7: skip unit,
    continue); [skip] chooses.  The demuxer is not part of the
    sources. *)
Definition read_packet (skip : bool) (ctx : FormatContext)
  : read_result * FormatContext :=
  match nth_error (units ctx) (cursor ctx) with
  | None => (EndOfStream, ctx)
  | Some (Stored p) => (Delivered p, advance ctx)
  | Some Corrupt => (ReadError, if skip then advance ctx else ctx)
  end.

(** Modelled from the spec: [open] of section 4.1 leaves the cursor at
    the start of the container.  The demuxer is not part of the
    sources. *)
Definition open (table : list (Z * Z)) (content : list storage)
  : FormatContext :=
  {| streams := table; units := content; cursor := 0 |}.

(** The results of [n] calls of [read_packet], one after the other. *)
Fixpoint read_many (skip : bool) (n : nat) (ctx : FormatContext)
  : list read_result :=
  match n with
  | O => []
  | S n' =>
      let '(r, ctx') := read_packet skip ctx in
      r :: read_many skip n' ctx'
  end.

(** The packets among some results, and the packets a container holds. *)
Fixpoint delivered (rs : list read_result) : list Packet :=
  match rs with
  | [] => []
  | Delivered p :: rs' => p :: delivered rs'
  | _ :: rs' => delivered rs'
  end.

Fixpoint stored (us : list storage) : list Packet :=
  match us with
  | [] => []
  | Stored p :: us' => p :: stored us'
  | Corrupt :: us' => stored us'
  end.

End Demuxer.

(* ================================================================== *)
(** ** The decoder behind [tao_codec_send_packet] *)

Module Decoder.

(** Modelled from the spec: the Frame of section 3, one decoded unit,
    reduced to its media-type tag, its sample count and its sample rate.
    The library that produces frames is not part of the sources. *)
Record Frame : Type := {
  audio : bool;
  nb_samples : Z;
  sample_rate : Z
}.

(** Modelled from the spec: the states of a CodecContext in section 4.2,
    [Created], [Opened] and [Closed], and [Broken] for a context that the
    implementation has marked broken after a [DecodeError].  The decoder
    is not part of the sources. *)
Inductive phase : Type :=
| Created
| Opened
| Broken
| Closed.

(** Modelled from the spec: the CodecContext of section 3, with its codec
    identifier, its negotiated parameters (sample rate and channel
    count), its lookahead buffer, here the frames decoded and not yet
    drained, and its state.  The decoder is not part of the sources. *)
Record CodecContext : Type := {
  codec_id : Z;
  rate : Z;
  channels : Z;
  lookahead : list Frame;
  state : phase
}.

(** Modelled from the spec: the three results of [submit] in section
    4.2, and [Rejected] for a call on a context that is not open (the
    misuse errors of section 7).  The decoder is not part of the
    sources. *)
Inductive submit_result : Type :=
| Accepted
| Busy
| DecodeError
| Rejected.

(** Modelled from the spec: the three results of [drain] in section 4.2,
    and [Refused] for a call on a context that is not open.  The decoder
    is not part of the sources. *)
Inductive drain_result : Type :=
| Drained (f : Frame)
| NeedMoreInput
| EndOfStream
| Refused.

Definition with_lookahead (ctx : CodecContext) (l : list Frame)
  : CodecContext :=
  {| codec_id := codec_id ctx; rate := rate ctx; channels := channels ctx;
     lookahead := l; state := state ctx |}.

Definition with_state (ctx : CodecContext) (s : phase) : CodecContext :=
  {| codec_id := codec_id ctx; rate := rate ctx; channels := channels ctx;
     lookahead := lookahead ctx; state := s |}.

Section Codec.

(** The pluggable implementation behind the interface: the frames a
    packet decodes to, none for a malformed bitstream; the number of
    frames the buffer holds before [submit] signals [Busy]; and whether
    the implementation marks the context broken on a [DecodeError]. *)
Variable decode : Demuxer.Packet -> option (list Frame).
Variable capacity : nat.
Variable marks_broken : bool.

(** Modelled from the spec: [submit] of section 4.2.  [Busy] means the
    buffer is full; [DecodeError] means the packet is malformed, and then
    the context stays as it was (the error is local to the unit) unless
    the implementation marks the context broken; [marks_broken] chooses.
    A context that is not open rejects the call.  The decoder is not
    part of the sources. *)
Definition submit (ctx : CodecContext) (pkt : Demuxer.Packet)
  : submit_result * CodecContext :=
  match state ctx with
  | Opened =>
      if (capacity <=? List.length (lookahead ctx))%nat then (Busy, ctx)
      else
        match decode pkt with
        | Some frames =>
            (Accepted, with_lookahead ctx (lookahead ctx ++ frames))
        | None =>
            (DecodeError, if marks_broken then with_state ctx Broken else ctx)
        end
  | _ => (Rejected, ctx)
  end.

(** Modelled from the spec: [drain] of section 4.2, which gives the
    oldest buffered frame or signals [NeedMoreInput] when no frame is
    buffered.  [EndOfStream] comes only after the caller has signalled
    the intent to flush, for which section 4.2 lists no operation: this
    [drain] never returns it.  The decoder is not part of the sources. *)
Definition drain (ctx : CodecContext) : drain_result * CodecContext :=
  match state ctx with
  | Opened =>
      match lookahead ctx with
      | f :: rest => (Drained f, with_lookahead ctx rest)
      | [] => (NeedMoreInput, ctx)
      end
  | _ => (Refused, ctx)
  end.





End Codec.

(** An implementation that decodes every packet with a payload to one
    frame of 1024 samples, an open context with nothing buffered, and
    two packets, the first without a payload. *)
Definition by_payload (pkt : Demuxer.Packet) : option (list Frame) :=
  match Demuxer.data pkt with
  | [] => None
  | _ :: _ =>
      Some [{| audio := true; nb_samples := 1024; sample_rate := 44100 |}]
  end.

Definition fresh : CodecContext :=
  {| codec_id := 86018; rate := 44100; channels := 2;
     lookahead := []; state := Opened |}.



End Decoder.

(* ================================================================== *)
(** ** A small library, for concrete runs

    One container behind the demuxer above and a decoder that buffers one
    frame for every packet with a payload and refuses a packet without.
    Packet handles are [256 + position in the container], frame handles
    [512 + number of frames given out before]. *)

Module Sim.

Record World : Type := {
  container : Demuxer.FormatContext;
  buffered : nat;
  given : nat
}.

Definition with_container (w : World) (ctx : Demuxer.FormatContext)
  : World :=
  {| container := ctx; buffered := buffered w; given := given w |}.

Definition packet_of (w : World) (p : ptr) : option Demuxer.Packet :=
  match nth_error (Demuxer.units (container w)) (Z.to_nat (p - 256)) with
  | Some (Demuxer.Stored pk) => Some pk
  | _ => None
  end.

Definition stream_entry (w : World) (i : Z) : Z * Z :=
  if i <? 0 then (0, 0)
  else nth (Z.to_nat i) (Demuxer.streams (container w)) (0, 0).

Definition format_read_packet (w : World) : Z * ptr * World :=
  let position := Demuxer.cursor (container w) in
  match Demuxer.read_packet true (container w) with
  | (Demuxer.Delivered _, ctx) =>
      ((TAO_OK, 256 + Z.of_nat position), with_container w ctx)
  | (Demuxer.EndOfStream, ctx) => ((TAO_EOF, NULL), with_container w ctx)
  | (Demuxer.ReadError, ctx) => ((TAO_ERROR, NULL), with_container w ctx)
  end.

Definition codec_send_packet (p : ptr) (w : World) : Z * World :=
  match packet_of w p with
  | Some pk =>
      match Demuxer.data pk with
      | [] => (TAO_ERROR, w)
      | _ :: _ =>
          (TAO_OK, {| container := container w;
                      buffered := S (buffered w); given := given w |})
      end
  | None => (TAO_ERROR, w)
  end.

Definition codec_receive_frame (w : World) : Z * ptr * World :=
  match buffered w with
  | O => ((TAO_NEED_MORE_DATA, NULL), w)
  | S n =>
      ((TAO_OK, 512 + Z.of_nat (given w)),
       {| container := container w; buffered := n; given := S (given w) |})
  end.

#[export] Instance lib : TaoLib World := {
  extern_tao_version w := (Some "0.1.0", w);
  extern_tao_build_info w := (Some "sim", w);
  extern_tao_init w := w;
  extern_tao_shutdown w := w;
  extern_tao_format_open_input filename w :=
    (match filename with Some _ => 16 | None => NULL end, w);
  extern_tao_format_read_packet _ w := format_read_packet w;
  extern_tao_format_get_stream_count _ w :=
    (Z.of_nat (List.length (Demuxer.streams (container w))), w);
  extern_tao_format_get_stream_codec_id _ i w := (snd (stream_entry w i), w);
  extern_tao_format_get_stream_media_type _ i w :=
    (fst (stream_entry w i), w);
  extern_tao_format_close _ w := w;
  extern_tao_codec_create_decoder codec_id w :=
    (if 0 <? codec_id then 32 else NULL, w);
  extern_tao_codec_open_decoder _ sample_rate channels _ _ w :=
    (if (0 <? sample_rate) && (0 <? channels) then TAO_OK else TAO_ERROR, w);
  extern_tao_codec_send_packet _ p w := codec_send_packet p w;
  extern_tao_codec_receive_frame _ w := codec_receive_frame w;
  extern_tao_codec_close _ w := w;
  extern_tao_packet_stream_index p w :=
    (match packet_of w p with
     | Some pk => Demuxer.stream_index pk
     | None => -1
     end, w);
  extern_tao_packet_free _ w := w;
  extern_tao_frame_is_audio _ w := (1, w);
  extern_tao_frame_nb_samples _ w := (1024, w);
  extern_tao_frame_sample_rate _ w := (44100, w);
  extern_tao_frame_free _ w := w
}.

(** A file with a video stream and an audio stream; of its two audio
    packets the first has no payload. *)
Definition two_streams : World :=
  {| container :=
       Demuxer.open
         [(TAO_MEDIA_TYPE_VIDEO, 27); (TAO_MEDIA_TYPE_AUDIO, 86018)]
         [Demuxer.Stored {| Demuxer.data := [Byte.x01; Byte.x02];
                            Demuxer.stream_index := 0; Demuxer.pts := 0 |};
          Demuxer.Stored {| Demuxer.data := [];
                            Demuxer.stream_index := 1; Demuxer.pts := 0 |};
          Demuxer.Stored {| Demuxer.data := [Byte.x07];
                            Demuxer.stream_index := 1;
                            Demuxer.pts := 1024 |}];
     buffered := 0;
     given := 0 |}.

Definition argv : list string := ["decode_audio"; "input.wav"].

(** The calls of [main] on that file. *)
Definition run : trace := run_trace (main 4 argv two_streams).

(** The same file with the cursor at position [n]. *)
Definition at_position (n : nat) : World :=
  with_container two_streams
    {| Demuxer.streams := Demuxer.streams (container two_streams);
       Demuxer.units := Demuxer.units (container two_streams);
       Demuxer.cursor := n |}.

Definition no_counts : counters :=
  {| packet_count := 0; frame_count := 0; total_samples := 0 |}.

End Sim.

(* ================================================================== *)
(** ** The same container on the decoder of section 4.2

    The library of [Sim] with the decoder above in the place of its
    decoder: [tao_codec_send_packet] is [submit], [tao_codec_receive_frame]
    is [drain].  Frame handles are [512 + number of frames given out
    before]. *)

Module Bench.

Record World : Type := {
  container : Demuxer.FormatContext;
  decoder : Decoder.CodecContext;
  given : list Decoder.Frame
}.

Definition with_container (w : World) (ctx : Demuxer.FormatContext)
  : World :=
  {| container := ctx; decoder := decoder w; given := given w |}.

Definition with_decoder (w : World) (ctx : Decoder.CodecContext) : World :=
  {| container := container w; decoder := ctx; given := given w |}.

Definition packet_of (w : World) (p : ptr) : option Demuxer.Packet :=
  match nth_error (Demuxer.units (container w)) (Z.to_nat (p - 256)) with
  | Some (Demuxer.Stored pk) => Some pk
  | _ => None
  end.

Definition frame_of (w : World) (f : ptr) : option Decoder.Frame :=
  nth_error (given w) (Z.to_nat (f - 512)).

Definition stream_entry (w : World) (i : Z) : Z * Z :=
  if i <? 0 then (0, 0)
  else nth (Z.to_nat i) (Demuxer.streams (container w)) (0, 0).

Definition format_read_packet (w : World) : Z * ptr * World :=
  let position := Demuxer.cursor (container w) in
  match Demuxer.read_packet true (container w) with
  | (Demuxer.Delivered _, ctx) =>
      ((TAO_OK, 256 + Z.of_nat position), with_container w ctx)
  | (Demuxer.EndOfStream, ctx) => ((TAO_EOF, NULL), with_container w ctx)
  | (Demuxer.ReadError, ctx) => ((TAO_ERROR, NULL), with_container w ctx)
  end.

Definition codec_open_decoder (sample_rate channels : Z) (w : World)
  : Z * World :=
  match Decoder.state (decoder w) with
  | Decoder.Created =>
      (TAO_OK,
       with_decoder w
         {| Decoder.codec_id := Decoder.codec_id (decoder w);
            Decoder.rate := sample_rate;
            Decoder.channels := channels;
            Decoder.lookahead := [];
            Decoder.state := Decoder.Opened |})
  | _ => (TAO_ERROR, w)
  end.

Definition codec_send_packet (marks_broken : bool) (p : ptr) (w : World)
  : Z * World :=
  match packet_of w p with
  | Some pk =>
      let '(r, ctx) :=
        Decoder.submit Decoder.by_payload 4 marks_broken (decoder w) pk in
      (match r with
       | Decoder.Accepted => TAO_OK
       | Decoder.Busy => TAO_NEED_MORE_DATA
       | _ => TAO_ERROR
       end, with_decoder w ctx)
  | None => (TAO_ERROR, w)
  end.

Definition codec_receive_frame (w : World) : Z * ptr * World :=
  match Decoder.drain (decoder w) with
  | (Decoder.Drained f, ctx) =>
      ((TAO_OK, 512 + Z.of_nat (List.length (given w))),
       {| container := container w; decoder := ctx;
          given := given w ++ [f] |})
  | (Decoder.NeedMoreInput, _) => ((TAO_NEED_MORE_DATA, NULL), w)
  | (Decoder.EndOfStream, _) => ((TAO_EOF, NULL), w)
  | (Decoder.Refused, _) => ((TAO_ERROR, NULL), w)
  end.

Definition lib (marks_broken : bool) : TaoLib World := {|
  extern_tao_version w := (Some "0.1.0", w);
  extern_tao_build_info w := (Some "bench", w);
  extern_tao_init w := w;
  extern_tao_shutdown w := w;
  extern_tao_format_open_input filename w :=
    (match filename with Some _ => 16 | None => NULL end, w);
  extern_tao_format_read_packet _ w := format_read_packet w;
  extern_tao_format_get_stream_count _ w :=
    (Z.of_nat (List.length (Demuxer.streams (container w))), w);
  extern_tao_format_get_stream_codec_id _ i w := (snd (stream_entry w i), w);
  extern_tao_format_get_stream_media_type _ i w :=
    (fst (stream_entry w i), w);
  extern_tao_format_close _ w := w;
  extern_tao_codec_create_decoder codec_id w :=
    (32, with_decoder w
           {| Decoder.codec_id := codec_id; Decoder.rate := 0;
              Decoder.channels := 0; Decoder.lookahead := [];
              Decoder.state := Decoder.Created |});
  extern_tao_codec_open_decoder _ sample_rate channels _ _ w :=
    codec_open_decoder sample_rate channels w;
  extern_tao_codec_send_packet _ p w := codec_send_packet marks_broken p w;
  extern_tao_codec_receive_frame _ w := codec_receive_frame w;
  extern_tao_codec_close _ w :=
    with_decoder w (Decoder.with_state (decoder w) Decoder.Closed);
  extern_tao_packet_stream_index p w :=
    (match packet_of w p with
     | Some pk => Demuxer.stream_index pk
     | None => -1
     end, w);
  extern_tao_packet_free _ w := w;
  extern_tao_frame_is_audio f w :=
    (match frame_of w f with
     | Some fr => if Decoder.audio fr then 1 else 0
     | None => 0
     end, w);
  extern_tao_frame_nb_samples f w :=
    (match frame_of w f with
     | Some fr => Decoder.nb_samples fr
     | None => 0
     end, w);
  extern_tao_frame_sample_rate f w :=
    (match frame_of w f with
     | Some fr => Decoder.sample_rate fr
     | None => 0
     end, w);
  extern_tao_frame_free _ w := w
|}.

(** A file with an audio stream of three packets, of which the second
    has no payload, and no decoder created yet. *)
Definition one_stream : World :=
  {| container :=
       Demuxer.open
         [(TAO_MEDIA_TYPE_AUDIO, 86018)]
         [Demuxer.Stored {| Demuxer.data := [Byte.x01; Byte.x02];
                            Demuxer.stream_index := 0; Demuxer.pts := 0 |};
          Demuxer.Stored {| Demuxer.data := [];
                            Demuxer.stream_index := 0;
                            Demuxer.pts := 1024 |};
          Demuxer.Stored {| Demuxer.data := [Byte.x07];
                            Demuxer.stream_index := 0;
                            Demuxer.pts := 2048 |}];
     decoder := Decoder.with_state Decoder.fresh Decoder.Closed;
     given := [] |}.

(** The submissions and the frame lines of [main] on that file. *)
Definition submissions_and_lines (marks_broken : bool) : trace :=
  filter (fun e =>
            match e with
            | Ev_tao_codec_send_packet _ _ _ => true
            | Ev_printf format _ => String.eqb format frame_line
            | _ => false
            end)
    (run_trace (main (lib := lib marks_broken) 5
                  ["decode_audio"; "input.wav"] one_stream)).

End Bench.

(* ================================================================== *)
(** ** More checks on the calls of [main] *)

(** *** Reading is over

    The latest read, if any, did not give a packet. *)
Fixpoint reading_over (h : trace) : bool :=
  match h with
  | [] => false
  | Ev_tao_format_read_packet _ r p :: _ =>
      match outcome_of_read r p with
      | Success => false
      | _ => true
      end
  | _ :: h' => reading_over h'
  end.

(** The calls that end a run: output, the two closes and the shutdown. *)
Definition winds_down (e : event) : bool :=
  match e with
  | Ev_printf _ _ | Ev_fprintf_stderr _ _ => true
  | Ev_tao_codec_close _ | Ev_tao_format_close _ | Ev_tao_shutdown => true
  | _ => false
  end.

Definition stops_ok (h : trace) (e : event) : bool :=
  if reading_over h then winds_down e else true.

(** *** The contexts in use *)

(** The format context that is open, and the decoder that is open. *)
Fixpoint open_format (h : trace) : option ptr :=
  match h with
  | [] => None
  | Ev_tao_format_close _ :: _ => None
  | Ev_tao_format_open_input _ r :: _ => created r
  | _ :: h' => open_format h'
  end.

Fixpoint open_codec (h : trace) : option ptr :=
  match h with
  | [] => None
  | Ev_tao_codec_close _ :: _ => None
  | Ev_tao_codec_create_decoder _ r :: _ => created r
  | _ :: h' => open_codec h'
  end.

(** The format context a call is made on, and the decoder. *)
Definition format_handle (e : event) : option ptr :=
  match e with
  | Ev_tao_format_read_packet ctx _ _ => Some ctx
  | Ev_tao_format_get_stream_count ctx _ => Some ctx
  | Ev_tao_format_get_stream_codec_id ctx _ _ => Some ctx
  | Ev_tao_format_get_stream_media_type ctx _ _ => Some ctx
  | Ev_tao_format_close ctx => Some ctx
  | _ => None
  end.

Definition codec_handle (e : event) : option ptr :=
  match e with
  | Ev_tao_codec_open_decoder ctx _ _ _ _ _ => Some ctx
  | Ev_tao_codec_send_packet ctx _ _ => Some ctx
  | Ev_tao_codec_receive_frame ctx _ _ => Some ctx
  | Ev_tao_codec_close ctx => Some ctx
  | _ => None
  end.

Definition is_handle (o : option ptr) (c : ptr) : bool :=
  match o with
  | Some c' => c =? c'
  | None => false
  end.

Definition handles_ok (h : trace) (e : event) : bool :=
  match format_handle e with
  | Some c => is_handle (open_format h) c
  | None => true
  end &&
  match codec_handle e with
  | Some d => is_handle (open_codec h) d
  | None => true
  end.

(** *** The steps on a frame *)

Definition is_frame_question (e : event) : bool :=
  match e with
  | Ev_tao_frame_is_audio _ _ => true
  | Ev_tao_frame_nb_samples _ _ => true
  | Ev_tao_frame_sample_rate _ _ => true
  | _ => false
  end.

(** A frame just received is asked whether it is audio; if it is not it
    is freed, and if it is it is asked its sample count and then its
    sample rate; no frame is asked anything elsewhere. *)
Definition frame_steps (h : trace) (e : event) : bool :=
  match h with
  | Ev_tao_codec_receive_frame _ r f :: _ =>
      if (r =? TAO_OK) && negb (f =? NULL) then
        match e with
        | Ev_tao_frame_is_audio f' _ => f' =? f
        | _ => false
        end
      else negb (is_frame_question e)
  | Ev_tao_frame_is_audio f r :: _ =>
      if r =? 0 then
        match e with
        | Ev_tao_frame_free f' => f' =? f
        | _ => false
        end
      else
        match e with
        | Ev_tao_frame_nb_samples f' _ => f' =? f
        | _ => false
        end
  | Ev_tao_frame_nb_samples f _ :: _ =>
      match e with
      | Ev_tao_frame_sample_rate f' _ => f' =? f
      | _ => false
      end
  | _ => negb (is_frame_question e)
  end.

(** The latest call leaves no step on a frame to be made. *)
Definition frame_idle (h : trace) : bool :=
  match h with
  | Ev_tao_codec_receive_frame _ r f :: _ =>
      negb ((r =? TAO_OK) && negb (f =? NULL))
  | Ev_tao_frame_is_audio _ _ :: _ => false
  | Ev_tao_frame_nb_samples _ _ :: _ => false
  | _ => true
  end.

(** *** The scan of the streams *)

(** What [tao_format_get_stream_count] answered. *)
Fixpoint stream_count_answer (h : trace) : option Z :=
  match h with
  | [] => None
  | Ev_tao_format_get_stream_count _ n :: _ => Some n
  | _ :: h' => stream_count_answer h'
  end.

(** How many streams have been asked their media type. *)
Fixpoint streams_asked (h : trace) : Z :=
  match h with
  | [] => 0
  | Ev_tao_format_get_stream_media_type _ _ _ :: h' => streams_asked h' + 1
  | _ :: h' => streams_asked h'
  end.

(** What [tao_format_get_stream_codec_id] answered for stream [a]. *)
Fixpoint codec_answer (a : Z) (h : trace) : option Z :=
  match h with
  | [] => None
  | Ev_tao_format_get_stream_codec_id _ i r :: h' =>
      if i =? a then Some r else codec_answer a h'
  | _ :: h' => codec_answer a h'
  end.

(** The media type is asked of the streams in order, from 0 and below
    the stream count; the codec of a stream is asked right after its
    media type; the decoder is created after all streams have been
    asked, for the codec of the selected stream. *)
Definition scan_ok (h : trace) (e : event) : bool :=
  match e with
  | Ev_tao_format_get_stream_media_type _ i _ =>
      match stream_count_answer h with
      | Some n => (i =? streams_asked h) && (i <? n)
      | None => false
      end
  | Ev_tao_format_get_stream_codec_id ctx i _ =>
      match h with
      | Ev_tao_format_get_stream_media_type ctx' i' _ :: _ =>
          (ctx =? ctx') && (i =? i')
      | _ => false
      end
  | Ev_tao_codec_create_decoder codec_id _ =>
      match stream_count_answer h, selected_stream h with
      | Some n, Some a =>
          (streams_asked h =? n) &&
          match codec_answer a h with
          | Some id => codec_id =? id
          | None => false
          end
      | _, _ => false
      end
  | _ => true
  end.

(** *** What is counted *)

(** The submissions, the audio frames and the samples so far. *)
Fixpoint sends (h : trace) : Z :=
  match h with
  | [] => 0
  | Ev_tao_codec_send_packet _ _ _ :: h' => sends h' + 1
  | _ :: h' => sends h'
  end.

Fixpoint audio_frames (h : trace) : Z :=
  match h with
  | [] => 0
  | Ev_tao_frame_is_audio _ r :: h' =>
      if r =? 0 then audio_frames h' else audio_frames h' + 1
  | _ :: h' => audio_frames h'
  end.

Fixpoint samples (h : trace) : Z :=
  match h with
  | [] => 0
  | Ev_tao_frame_nb_samples _ n :: h' => samples h' + n
  | _ :: h' => samples h'
  end.

Definition packets_line : string := "  数据包: %d\n".
Definition frames_line : string := "  帧: %d\n".
Definition samples_line : string := "  总采样: %lld\n".

Definition is_number (n : Z) (args : list parg) : bool :=
  match args with
  | [PInt n'] => n' =? n
  | _ => false
  end.

(** The three lines of the summary carry the three counts. *)
Definition stats_ok (h : trace) (e : event) : bool :=
  match e with
  | Ev_printf format args =>
      if String.eqb format packets_line then
        is_number (wrap 32 (sends h)) args
      else if String.eqb format frames_line then
        is_number (wrap 32 (audio_frames h)) args
      else if String.eqb format samples_line then
        is_number (wrap 64 (samples h)) args
      else true
  | _ => true
  end.

Definition is_numbered_frame_line (k nb_samples sample_rate : Z)
  (e : event) : bool :=
  match e with
  | Ev_printf format [PInt k'; PInt n; PInt r] =>
      String.eqb format frame_line && (k' =? k) && (n =? nb_samples) &&
      (r =? sample_rate)
  | _ => false
  end.

(** Once an audio frame has given its sample rate, its line is written
    if the count of audio frames, this one included, is at most 5, and
    the frame is freed at once if not. *)
Definition counted (h : trace) (e : event) : bool :=
  match h with
  | Ev_tao_frame_sample_rate f sr :: Ev_tao_frame_nb_samples _ nb :: _ =>
      if wrap 32 (audio_frames h) <=? 5 then
        is_numbered_frame_line (wrap 32 (audio_frames h)) nb sr e
      else
        match e with
        | Ev_tao_frame_free f' => f' =? f
        | _ => false
        end
  | _ => stats_ok h e
  end.

(** The latest call is not a question about a sample rate. *)
Definition unrated (h : trace) : bool :=
  match h with
  | Ev_tao_frame_sample_rate _ _ :: _ => false
  | _ => true
  end.

(** What the proofs know of the counters at the top of a turn. *)
Definition counters_follow (c : counters) (h : trace) : Prop :=
  unrated h = true /\
  packet_count c = wrap 32 (sends h) /\
  frame_count c = wrap 32 (audio_frames h) /\
  total_samples c = wrap 64 (samples h).

(** *** What a run reports *)

Definition is_open_ok (e : event) : bool :=
  match e with
  | Ev_tao_codec_open_decoder _ _ _ _ _ r => r =? TAO_OK
  | _ => false
  end.

Definition is_error_line (e : event) : bool :=
  match e with
  | Ev_fprintf_stderr _ _ => true
  | _ => false
  end.

(** Whether the decoder has been opened, and the lines written to the
    standard error. *)
Definition report_step (s : bool * nat) (e : event) : option (bool * nat) :=
  Some (if is_open_ok e then true else fst s,
        if is_error_line e then S (snd s) else snd s).

(** *** The entry points that are declared and not used *)

Definition is_unused_entry (e : event) : bool :=
  match e with
  | Ev_tao_version_int _ => true
  | Ev_tao_packet_data _ _ => true
  | Ev_tao_packet_size _ _ => true
  | Ev_tao_packet_pts _ _ => true
  | Ev_tao_frame_is_video _ _ => true
  | Ev_tao_frame_width _ _ => true
  | Ev_tao_frame_height _ _ => true
  | Ev_tao_frame_data _ _ _ => true
  | Ev_tao_frame_linesize _ _ _ => true
  | _ => false
  end.

Definition uses_ok (_ : trace) (e : event) : bool :=
  negb (is_unused_entry e).

(** *** A file without audio, for concrete runs *)

Definition video_only : Sim.World :=
  {| Sim.container :=
       Demuxer.open
         [(TAO_MEDIA_TYPE_VIDEO, 27)]
         [Demuxer.Stored {| Demuxer.data := [Byte.x01];
                            Demuxer.stream_index := 0;
                            Demuxer.pts := 0 |}];
     Sim.buffered := 0;
     Sim.given := 0 |}.


(* ================================================================== *)
(** * Facts *)

(** ** Monitors and the program logic *)

Section MonitorFacts.

Context {St : Type}.
Variable step : St -> event -> option St.

Lemma run_monitor_app (t1 t2 : trace) (s : St) :
  run_monitor step s (t1 ++ t2) =
  match run_monitor step s t1 with
  | Some s1 => run_monitor step s1 t2
  | None => None
  end.
Proof.
  revert s; induction t1 as [|e t1 IH]; intros s; simpl; [reflexivity|].
  destruct (step s e); [apply IH | reflexivity].
Qed.

Context {World : Type}.

Lemma sat_pure {A} (a : A) s (Q : option A -> St -> Prop) :
  Q (Some a) s -> sat step (pure (World := World) a) s Q.
Proof. intros H w. exists s. split; [reflexivity | exact H]. Qed.

Lemma sat_out_of_fuel {A} s (Q : option A -> St -> Prop) :
  Q None s -> sat step (out_of_fuel (World := World)) s Q.
Proof. intros H w. exists s. split; [reflexivity | exact H]. Qed.

Lemma sat_bind {A B} (m : M World A) (k : A -> M World B) s
  (Q : option B -> St -> Prop) :
  sat step m s (fun o s1 =>
                  match o with
                  | Some a => sat step (k a) s1 Q
                  | None => Q None s1
                  end) ->
  sat step (bind m k) s Q.
Proof.
  intros H w. destruct (H w) as (s1 & H1 & H2). unfold bind.
  destruct (m w) as [[t1 w1] o]. cbn in H1, H2.
  destruct o as [a|].
  - destruct (H2 w1) as (s2 & H3 & H4).
    destruct (k a w1) as [[t2 w2] b]. cbn in H3, H4 |- *.
    exists s2. rewrite run_monitor_app, H1. auto.
  - exists s1. auto.
Qed.

Lemma sat_call {R} (f : World -> R * World) (ev : R -> event) s
  (Q : option R -> St -> Prop) :
  (forall r, exists s', step s (ev r) = Some s' /\ Q (Some r) s') ->
  sat step (call f ev) s Q.
Proof.
  intros H w. unfold call. destruct (f w) as [r w'].
  destruct (H r) as (s' & H1 & H2). exists s'. cbn. rewrite H1. auto.
Qed.

Lemma sat_call_void (f : World -> World) (ev : event) s
  (Q : option unit -> St -> Prop) :
  (exists s', step s ev = Some s' /\ Q (Some tt) s') ->
  sat step (call_void f ev) s Q.
Proof.
  intros (s' & H1 & H2) w. exists s'. cbn. rewrite H1. auto.
Qed.

Lemma sat_output (ev : event) s (Q : option unit -> St -> Prop) :
  (exists s', step s ev = Some s' /\ Q (Some tt) s') ->
  sat step (output (World := World) ev) s Q.
Proof.
  intros (s' & H1 & H2) w. exists s'. cbn. rewrite H1. auto.
Qed.

Lemma sat_weaken {A} (m : M World A) s (Q Q' : option A -> St -> Prop) :
  sat step m s Q -> (forall o s', Q o s' -> Q' o s') -> sat step m s Q'.
Proof.
  intros H HQ w. destruct (H w) as (s' & H1 & H2). exists s'. auto.
Qed.

(** The loop rule: [I] holds of the loop variables and the monitor state
    at the top of every iteration. *)
Lemma sat_while_1 {S} (body : S -> M World (flow * S))
  (I : S -> St -> Prop) (Q : option S -> St -> Prop) :
  (forall v s, I v s -> Q None s) ->
  (forall v s, I v s ->
     sat step (body v) s
         (fun o s' =>
            match o with
            | None => Q None s'
            | Some (Break, v') => Q (Some v') s'
            | Some (Continue, v') => I v' s'
            end)) ->
  forall fuel v s, I v s -> sat step (while_1 fuel body v) s Q.
Proof.
  intros Hstop Hbody fuel.
  induction fuel as [|fuel IH]; intros v s HI; simpl.
  - apply sat_out_of_fuel. eauto.
  - apply sat_bind. eapply sat_weaken; [apply Hbody; exact HI|].
    intros [[[|] v']|] s' H; cbn in H |- *; auto.
    apply sat_pure. exact H.
Qed.

End MonitorFacts.

(** ** More fuel changes no finished run *)

Section Fuel.

Context {World : Type} {lib : TaoLib World}.

Lemma finishes_as_refl {A} (m : M World A) : finishes_as m m.
Proof. intros w t w' v H. exact H. Qed.

Lemma finishes_as_bind {A B} (m m' : M World A) (k k' : A -> M World B) :
  finishes_as m m' -> (forall a, finishes_as (k a) (k' a)) ->
  finishes_as (bind m k) (bind m' k').
Proof.
  intros Hm Hk w t w' v. unfold bind.
  destruct (m w) as [[t1 w1] [a|]] eqn:E; [|discriminate].
  rewrite (Hm _ _ _ _ E).
  destruct (k a w1) as [[t2 w2] [b|]] eqn:E2; [|discriminate].
  rewrite (Hk _ _ _ _ _ E2). auto.
Qed.

Lemma finishes_as_while_1 {S} (body body' : S -> M World (flow * S)) :
  (forall s, finishes_as (body s) (body' s)) ->
  forall n m, (n <= m)%nat ->
  forall s, finishes_as (while_1 n body s) (while_1 m body' s).
Proof.
  intros Hbody n. induction n as [|n IH]; intros m Hm s.
  - intros w t w' v H. discriminate.
  - destruct m as [|m]; [lia|]. cbn [while_1].
    apply finishes_as_bind; [apply Hbody|].
    intros [[|] s']; [apply IH; lia | apply finishes_as_refl].
Qed.

Lemma decode_body_more_fuel (n m : nat) (fmt_ctx dec_ctx : ptr) (a : Z)
  (c : counters) :
  (n <= m)%nat ->
  finishes_as (decode_body n fmt_ctx dec_ctx a c)
              (decode_body m fmt_ctx dec_ctx a c).
Proof.
  intros Hm. unfold decode_body.
  apply finishes_as_bind; [apply finishes_as_refl|]. intros [ret pkt].
  destruct (_ =? TAO_EOF); [apply finishes_as_refl|].
  destruct (_ || _); [apply finishes_as_refl|].
  apply finishes_as_bind; [apply finishes_as_refl|]. intros idx.
  destruct (negb _); [apply finishes_as_refl|].
  apply finishes_as_bind; [apply finishes_as_refl|]. intros ret'.
  apply finishes_as_bind; [apply finishes_as_refl|]. intros _.
  destruct (negb _); [apply finishes_as_refl|].
  apply finishes_as_bind; [|intro; apply finishes_as_refl].
  apply finishes_as_while_1; [intro; apply finishes_as_refl | exact Hm].
Qed.

(** A run of [main] that has returned is the run of [main] with any
    larger fuel. *)
Lemma main_more_fuel (n m : nat) (argv : list string) :
  (n <= m)%nat -> finishes_as (main n argv) (main m argv).
Proof.
  intros Hm. unfold main.
  destruct (_ <? 2); [apply finishes_as_refl|].
  repeat (apply finishes_as_bind; [apply finishes_as_refl|]; intro).
  destruct (_ =? NULL); [apply finishes_as_refl|].
  repeat (apply finishes_as_bind; [apply finishes_as_refl|]; intro).
  match goal with |- finishes_as (match ?x with _ => _ end) _ =>
    destruct x as [audio_stream audio_codec_id] end.
  destruct (_ <? 0); [apply finishes_as_refl|].
  repeat (apply finishes_as_bind; [apply finishes_as_refl|]; intro).
  destruct (_ =? NULL); [apply finishes_as_refl|].
  repeat (apply finishes_as_bind; [apply finishes_as_refl|]; intro).
  destruct (negb _); [apply finishes_as_refl|].
  apply finishes_as_bind; [|intro; apply finishes_as_refl].
  apply finishes_as_while_1; [|exact Hm].
  intro. apply decode_body_more_fuel. exact Hm.
Qed.

End Fuel.

(** Stepping through a program, one construct at a time. *)
Ltac unfold_calls :=
  cbv [tao_version tao_build_info tao_init tao_shutdown
       tao_format_open_input tao_format_read_packet
       tao_format_get_stream_count tao_format_get_stream_codec_id
       tao_format_get_stream_media_type tao_format_close
       tao_codec_create_decoder tao_codec_open_decoder
       tao_codec_send_packet tao_codec_receive_frame tao_codec_close
       tao_packet_stream_index tao_packet_free tao_frame_is_audio
       tao_frame_nb_samples tao_frame_sample_rate tao_frame_free
       printf fprintf_stderr].

Ltac sat_event :=
  eexists; split; [cbn; reflexivity | cbv beta iota].

Ltac sat_step :=
  lazymatch goal with
  | |- sat _ (bind _ _) _ _ => apply sat_bind
  | |- sat _ (call _ _) _ _ => apply sat_call; intro
  | |- sat _ (call_void _ _) _ _ => apply sat_call_void
  | |- sat _ (output _) _ _ => apply sat_output
  | |- sat _ (pure _) _ _ => apply sat_pure
  end.

Ltac sat_run := repeat (first [sat_step | sat_event]).

(** Case analysis on the test of the conditional the program is at. *)
Tactic Notation "sat_if" "as" ident(E) :=
  lazymatch goal with
  | |- sat _ (if ?b then _ else _) _ _ => destruct b eqn:E
  end.

Tactic Notation "sat_if" :=
  lazymatch goal with
  | |- sat _ (if ?b then _ else _) _ _ => destruct b
  end.

Ltac rewrite_facts :=
  repeat match goal with
         | H : _ = true |- _ => rewrite H
         | H : _ = false |- _ => rewrite H
         end.

(** An event whose effect on the ownership monitor depends on facts in
    the context. *)
Ltac own_event :=
  eexists; split;
  [unfold own_step; cbn; rewrite_facts; cbn; rewrite ?Z.eqb_refl; reflexivity
  |cbv beta iota].

(** ** Ownership *)

Section OwnershipFacts.

Variable classify : event -> action.

(** Handles given out and handles freed balance, up to the one in hand. *)
Lemma own_balance (t : trace) :
  forall held held',
    run_monitor (own_step classify) held t = Some held' ->
    (acquires classify t + in_hand held =
     releases classify t + in_hand held')%nat.
Proof.
  unfold acquires, releases.
  induction t as [|e t IH]; intros held held'; simpl.
  - intros [= ->]. reflexivity.
  - unfold own_step at 1.
    destruct (classify e) as [h|h|h|] eqn:E; destruct held as [h'|]; simpl;
      try discriminate;
      try (destruct (h =? h'); [|discriminate]);
      intros H; apply IH in H; simpl in H; lia.
Qed.

End OwnershipFacts.

(** ** History checks *)

Lemma hist_run (check : trace -> event -> bool) (t : trace) :
  forall h h',
    run_monitor (hist_step check) h t = Some h' ->
    h' = rev t ++ h /\
    forall pre e post, t = pre ++ e :: post -> check (rev pre ++ h) e = true.
Proof.
  induction t as [|e0 t IH]; intros h h'; simpl.
  - intros [= <-]. split; [reflexivity|].
    intros [|? ?] ? ? ?; discriminate.
  - unfold hist_step at 1. destruct (check h e0) eqn:C; [|discriminate].
    intros H. apply IH in H. destruct H as [-> H]. split.
    + rewrite <- app_assoc. reflexivity.
    + intros [|e1 pre] e post E; injection E as -> ->.
      * exact C.
      * simpl. rewrite <- app_assoc. apply (H pre e post). reflexivity.
Qed.

Lemma hist_passes (check : trace -> event -> bool) (t h : trace) :
  run_monitor (hist_step check) [] t = Some h ->
  h = rev t /\ passes check t.
Proof.
  intros H. apply hist_run in H. destruct H as [-> H].
  rewrite app_nil_r. split; [reflexivity|].
  intros pre e post E. specialize (H pre e post E).
  rewrite app_nil_r in H. exact H.
Qed.

(** ** What the monitors refuse *)

Example own_refuses_second_free :
  run_monitor (own_step packet_action) None
    [Ev_tao_format_read_packet 16 TAO_OK 256; Ev_tao_packet_free 256;
     Ev_tao_packet_free 256] = None.
Proof. reflexivity. Qed.

Example own_refuses_use_after_free :
  run_monitor (own_step packet_action) None
    [Ev_tao_format_read_packet 16 TAO_OK 256; Ev_tao_packet_free 256;
     Ev_tao_packet_stream_index 256 0] = None.
Proof. reflexivity. Qed.

Example own_keeps_a_leaked_packet :
  run_monitor (own_step packet_action) None
    [Ev_tao_format_read_packet 16 TAO_OK 256;
     Ev_tao_packet_stream_index 256 0] = Some (Some 256).
Proof. reflexivity. Qed.

Example own_refuses_frame_read_after_free :
  run_monitor (own_step frame_action) None
    [Ev_tao_codec_receive_frame 32 TAO_OK 512; Ev_tao_frame_free 512;
     Ev_tao_frame_nb_samples 512 1024] = None.
Proof. reflexivity. Qed.

Example routed_refuses_other_stream :
  run_monitor (hist_step routed) []
    [Ev_tao_format_get_stream_media_type 16 0 TAO_MEDIA_TYPE_AUDIO;
     Ev_tao_format_read_packet 16 TAO_OK 256;
     Ev_tao_packet_stream_index 256 1;
     Ev_tao_codec_send_packet 32 256 TAO_OK] = None.
Proof. reflexivity. Qed.

Example drain_refuses_read_before_drain :
  run_monitor (hist_step drain_ok) []
    [Ev_tao_codec_send_packet 32 256 TAO_OK; Ev_tao_packet_free 256;
     Ev_tao_format_read_packet 16 TAO_OK 257] = None.
Proof. reflexivity. Qed.

Example drain_refuses_receive_after_refusal :
  run_monitor (hist_step drain_ok) []
    [Ev_tao_codec_send_packet 32 256 TAO_ERROR; Ev_tao_packet_free 256;
     Ev_tao_codec_receive_frame 32 TAO_OK 512] = None.
Proof. reflexivity. Qed.

Example open_fixed_refuses_other_rate :
  run_monitor (hist_step open_fixed) []
    [Ev_tao_codec_create_decoder 86018 32;
     Ev_tao_codec_open_decoder 32 48000 2 NULL 0 TAO_OK] = None.
Proof. reflexivity. Qed.

Example no_timestamp_refuses_pts :
  run_monitor (hist_step no_timestamp) []
    [Ev_tao_format_read_packet 16 TAO_OK 256; Ev_tao_packet_pts 256 0]
  = None.
Proof. reflexivity. Qed.

Example life_refuses_shutdown_with_open_context :
  run_monitor life_step Fresh
    [Ev_tao_init; Ev_tao_format_open_input (Some "input.wav") 16;
     Ev_tao_shutdown] = None.
Proof. reflexivity. Qed.

Example life_refuses_second_shutdown :
  run_monitor life_step Fresh [Ev_tao_init; Ev_tao_shutdown; Ev_tao_shutdown]
  = None.
Proof. reflexivity. Qed.

Example life_refuses_second_close :
  run_monitor life_step Fresh
    [Ev_tao_init; Ev_tao_format_open_input (Some "input.wav") 16;
     Ev_tao_format_close 16; Ev_tao_format_close 16] = None.
Proof. reflexivity. Qed.

(** ** Packets are freed once *)

Section PacketOwnership.

Context {World : Type} {lib : TaoLib World}.

Lemma packets_for_streams (n : nat) :
  forall fmt_ctx i a id held,
    sat (own_step packet_action) (for_streams n fmt_ctx i a id) held
        (fun o s => o <> None /\ s = held).
Proof.
  induction n as [|n IH]; intros; simpl.
  - apply sat_pure. split; [discriminate | reflexivity].
  - unfold_calls. sat_run.
    destruct (_ && _); apply IH.
Qed.

Lemma packets_receive_loop (fuel : nat) (dec_ctx : ptr) :
  forall c held,
    sat (own_step packet_action)
        (while_1 fuel (receive_body dec_ctx) c) held
        (fun _ s => s = held).
Proof.
  intros c held.
  apply sat_while_1 with (I := fun _ s => s = held); auto.
  intros v s ->. unfold receive_body. unfold_calls.
  sat_step. sat_step. destruct r as [ret frame]. sat_event.
  destruct (_ || _); [sat_run; reflexivity|].
  destruct (_ || _); [sat_run; reflexivity|].
  sat_run. destruct (negb _).
  - sat_run. destruct (_ <=? _); sat_run; reflexivity.
  - sat_run. reflexivity.
Qed.

Lemma packets_decode_loop (fuel fuel' : nat) (fmt_ctx dec_ctx : ptr)
  (audio_stream : Z) :
  forall c,
    sat (own_step packet_action)
        (while_1 fuel (decode_body fuel' fmt_ctx dec_ctx audio_stream) c)
        None (fun _ s => s = None).
Proof.
  intros c.
  apply sat_while_1 with (I := fun _ s => s = None); auto.
  intros v s ->. unfold decode_body. unfold_calls.
  sat_step. sat_step. destruct r as [ret pkt]. cbn [fst snd].
  destruct (Z.eqb_spec ret TAO_OK) as [->|Hret];
    [destruct (pkt =? NULL) eqn:Hpkt|].
  - own_event. cbn. sat_run. reflexivity.
  - own_event. cbn [Z.eqb TAO_OK TAO_EOF negb orb].
    sat_step. sat_step. own_event.
    destruct (negb _).
    + sat_step. sat_step. own_event. sat_run. reflexivity.
    + sat_step. sat_step. own_event. sat_step. sat_step. own_event.
      destruct (negb _); [sat_run; reflexivity|].
      sat_step. eapply sat_weaken; [apply packets_receive_loop|].
      intros [c'|] s' ->; [sat_run|]; reflexivity.
  - apply Z.eqb_neq in Hret. own_event.
    destruct (ret =? TAO_EOF); [sat_run; reflexivity|].
    cbn [negb orb]. sat_run. reflexivity.
Qed.

Lemma packets_main (fuel : nat) (argv : list string) :
  sat (own_step packet_action) (main fuel argv) None (fun _ s => s = None).
Proof.
  unfold main. destruct (_ <? 2).
  { unfold_calls. sat_run. reflexivity. }
  unfold_calls. sat_run.
  destruct (_ =? NULL); [sat_run; reflexivity|].
  sat_run. eapply sat_weaken; [apply packets_for_streams|].
  intros [[a id]|] s' [Hn ->]; [|congruence].
  destruct (_ <? 0); [sat_run; reflexivity|].
  sat_run. destruct (_ =? NULL); [sat_run; reflexivity|].
  sat_run. destruct (negb _); [sat_run; reflexivity|].
  sat_step. eapply sat_weaken; [apply packets_decode_loop|].
  intros [c|] s' ->; [sat_run|]; reflexivity.
Qed.

(** C1: in every run of [main], whatever the library answers and however
    far the run has got, a packet obtained from [tao_format_read_packet]
    ([TAO_OK] and a packet) is used only while the program holds it and
    is freed by [tao_packet_free] before the next read, on the path where
    its stream index does not match and on the path through
    [tao_codec_send_packet] whatever that returned; at every turn of the
    decode loop no packet is left in hand, so the packets obtained and the
    calls of [tao_packet_free] are equally many. *)
Theorem packet_freed_exactly_once (fuel : nat) (argv : list string)
  (w : World) :
  run_monitor (own_step packet_action) None (run_trace (main fuel argv w))
    = Some None /\
  acquires packet_action (run_trace (main fuel argv w)) =
  releases packet_action (run_trace (main fuel argv w)).
Proof.
  destruct (packets_main fuel argv w) as (s & H & ->).
  split; [exact H|]. apply own_balance in H. simpl in H. lia.
Qed.

End PacketOwnership.

(** ** Frames are freed once *)

Section FrameOwnership.

Context {World : Type} {lib : TaoLib World}.

Lemma frames_for_streams (n : nat) :
  forall fmt_ctx i a id held,
    sat (own_step frame_action) (for_streams n fmt_ctx i a id) held
        (fun o s => o <> None /\ s = held).
Proof.
  induction n as [|n IH]; intros; simpl.
  - apply sat_pure. split; [discriminate | reflexivity].
  - unfold_calls. sat_run.
    destruct (_ && _); apply IH.
Qed.

Lemma frames_receive_loop (fuel : nat) (dec_ctx : ptr) :
  forall c,
    sat (own_step frame_action)
        (while_1 fuel (receive_body dec_ctx) c) None
        (fun _ s => s = None).
Proof.
  intros c.
  apply sat_while_1 with (I := fun _ s => s = None); auto.
  intros v s ->. unfold receive_body. unfold_calls.
  sat_step. sat_step. destruct r as [ret frame]. cbn [fst snd].
  destruct (Z.eqb_spec ret TAO_OK) as [->|Hret];
    [destruct (frame =? NULL) eqn:Hframe|].
  - own_event. cbn. sat_run. reflexivity.
  - own_event. cbn [Z.eqb TAO_OK TAO_EOF TAO_NEED_MORE_DATA negb orb].
    sat_step. sat_step. own_event.
    destruct (negb _).
    + sat_step. sat_step. sat_step. own_event. sat_step. sat_step.
      own_event.
      destruct (_ <=? _); sat_step; sat_step;
        [sat_event; sat_step|]; sat_step; sat_step; own_event;
        sat_run; reflexivity.
    + sat_step. sat_step. sat_step. own_event. sat_run. reflexivity.
  - apply Z.eqb_neq in Hret. own_event.
    destruct (_ || _); [sat_run; reflexivity|].
    cbn [negb orb]. sat_run. reflexivity.
Qed.

Lemma frames_decode_loop (fuel fuel' : nat) (fmt_ctx dec_ctx : ptr)
  (audio_stream : Z) :
  forall c,
    sat (own_step frame_action)
        (while_1 fuel (decode_body fuel' fmt_ctx dec_ctx audio_stream) c)
        None (fun _ s => s = None).
Proof.
  intros c.
  apply sat_while_1 with (I := fun _ s => s = None); auto.
  intros v s ->. unfold decode_body. unfold_calls.
  sat_step. sat_step. destruct r as [ret pkt]. sat_event.
  destruct (_ =? TAO_EOF); [sat_run; reflexivity|].
  destruct (_ || _); [sat_run; reflexivity|].
  sat_run. destruct (negb _); [sat_run; reflexivity|].
  sat_run. destruct (negb _); [sat_run; reflexivity|].
  sat_step. eapply sat_weaken; [apply frames_receive_loop|].
  intros [c'|] s' ->; [sat_run|]; reflexivity.
Qed.

Lemma frames_main (fuel : nat) (argv : list string) :
  sat (own_step frame_action) (main fuel argv) None (fun _ s => s = None).
Proof.
  unfold main. destruct (_ <? 2).
  { unfold_calls. sat_run. reflexivity. }
  unfold_calls. sat_run.
  destruct (_ =? NULL); [sat_run; reflexivity|].
  sat_run. eapply sat_weaken; [apply frames_for_streams|].
  intros [[a id]|] s' [Hn ->]; [|congruence].
  destruct (_ <? 0); [sat_run; reflexivity|].
  sat_run. destruct (_ =? NULL); [sat_run; reflexivity|].
  sat_run. destruct (negb _); [sat_run; reflexivity|].
  sat_step. eapply sat_weaken; [apply frames_decode_loop|].
  intros [c|] s' ->; [sat_run|]; reflexivity.
Qed.

(** C5: in every run of [main], a frame obtained from
    [tao_codec_receive_frame] ([TAO_OK] and a frame) is read by the
    accessor calls only while the program holds it and is freed by
    [tao_frame_free] after them, in the turn of the drain loop that
    obtained it: no frame is in hand when the next is received, none is
    left at the end, and the frames obtained and the calls of
    [tao_frame_free] are equally many. *)
Theorem frame_freed_exactly_once (fuel : nat) (argv : list string)
  (w : World) :
  run_monitor (own_step frame_action) None (run_trace (main fuel argv w))
    = Some None /\
  acquires frame_action (run_trace (main fuel argv w)) =
  releases frame_action (run_trace (main fuel argv w)).
Proof.
  destruct (frames_main fuel argv w) as (s & H & ->).
  split; [exact H|]. apply own_balance in H. simpl in H. lia.
Qed.

End FrameOwnership.

(** ** Packets are routed by stream index *)

(** An event at a history whose facts are in the context. *)
Ltac rewrite_eqs :=
  repeat match goal with
         | H : _ = _ |- _ => progress rewrite H
         end.

Ltac hist_event :=
  eexists; split;
  [unfold hist_step; cbn; rewrite_eqs; cbn; rewrite ?Z.eqb_refl; cbn;
   reflexivity
  |cbv beta iota].

Lemma routed_calm (h : trace) (e : event) :
  calm h = true -> is_send e = false -> routed h e = true.
Proof.
  destruct h as [|[] h]; simpl; try discriminate;
    destruct e; simpl; intros; try reflexivity; discriminate.
Qed.

Lemma selected_stream_cons (h : trace) (e : event) (a : Z) :
  selected_stream h = Some a -> selected_stream (e :: h) = Some a.
Proof. intros H. simpl. rewrite H. reflexivity. Qed.

(** The first event after a history known only by its facts. *)
Ltac calm_event :=
  eexists; split;
  [unfold hist_step; rewrite routed_calm by (assumption || reflexivity);
   reflexivity
  |cbv beta iota].

Section Routing.

Context {World : Type} {lib : TaoLib World}.

Lemma routed_for_streams (n : nat) :
  forall fmt_ctx i a id s,
    calm s = true -> 0 <= i -> selected_stream s = selection a ->
    sat (hist_step routed) (for_streams n fmt_ctx i a id) s
        (fun o s' =>
           exists a' id', o = Some (a', id') /\ calm s' = true /\
                          selected_stream s' = selection a').
Proof.
  induction n as [|n IH]; intros fmt_ctx i a id s Hc Hi Hs; simpl.
  - apply sat_pure. exists a, id. auto.
  - unfold_calls. sat_step. sat_step. calm_event.
    sat_step. sat_step. sat_event. sat_step. sat_step. sat_event.
    destruct (Z.eqb_spec r TAO_MEDIA_TYPE_AUDIO) as [->|Hr];
      [destruct (a <? 0) eqn:Ha|]; cbn [andb].
    + apply IH; [reflexivity | lia |].
      cbn. rewrite Hs. unfold selection. rewrite Ha.
      destruct (Z.ltb_spec i 0); [lia | reflexivity].
    + apply IH; [reflexivity | lia |].
      cbn. rewrite Hs. unfold selection. rewrite Ha. reflexivity.
    + apply IH; [reflexivity | lia |].
      cbn. rewrite Hs. destruct (selection a); [reflexivity|].
      apply Z.eqb_neq in Hr. rewrite Hr. reflexivity.
Qed.

Lemma routed_receive_loop (fuel : nat) (dec_ctx : ptr) (a : Z) :
  forall c s,
    calm s = true -> selected_stream s = Some a ->
    sat (hist_step routed) (while_1 fuel (receive_body dec_ctx) c) s
        (fun _ s' => calm s' = true /\ selected_stream s' = Some a).
Proof.
  intros c s Hc Hs.
  apply sat_while_1
    with (I := fun _ s' => calm s' = true /\ selected_stream s' = Some a);
    auto.
  clear. intros v s [Hc Hs]. unfold receive_body. unfold_calls.
  sat_step. sat_step. destruct r as [ret frame]. calm_event.
  assert (Hs' : forall e, selected_stream (e :: s) = Some a)
    by (intro; apply selected_stream_cons; exact Hs).
  destruct (_ || _); [sat_run; split; [reflexivity | apply Hs']|].
  destruct (_ || _); [sat_run; split; [reflexivity | apply Hs']|].
  sat_run. destruct (negb _).
  - sat_run. destruct (_ <=? _); sat_run;
      (split; [reflexivity | repeat apply selected_stream_cons; exact Hs]).
  - sat_run. split; [reflexivity|].
    repeat apply selected_stream_cons; exact Hs.
Qed.

Lemma routed_decode_loop (fuel fuel' : nat) (fmt_ctx dec_ctx : ptr)
  (a : Z) :
  forall c s,
    calm s = true -> selected_stream s = Some a ->
    sat (hist_step routed)
        (while_1 fuel (decode_body fuel' fmt_ctx dec_ctx a) c) s
        (fun _ s' => calm s' = true /\ selected_stream s' = Some a).
Proof.
  intros c s Hc Hs.
  apply sat_while_1
    with (I := fun _ s' => calm s' = true /\ selected_stream s' = Some a);
    auto.
  clear. intros v s [Hc Hs]. unfold decode_body. unfold_calls.
  sat_step. sat_step. destruct r as [ret pkt]. calm_event.
  destruct (_ =? TAO_EOF);
    [sat_run; split;
       [reflexivity | repeat apply selected_stream_cons; exact Hs]|].
  destruct (_ || _);
    [sat_run; split;
       [reflexivity | repeat apply selected_stream_cons; exact Hs]|].
  sat_step. sat_step. sat_event.
  destruct (r =? a) eqn:Hr; cbn [negb].
  - sat_step. sat_step.
    eexists; split;
      [unfold hist_step, routed, is_selected; cbn; rewrite Hs, Hr;
       rewrite Z.eqb_refl; reflexivity|cbv beta iota].
    sat_run.
    destruct (negb _);
      [sat_run; split;
         [reflexivity | repeat apply selected_stream_cons; exact Hs]|].
    sat_step. eapply sat_weaken.
    + apply routed_receive_loop with (a := a); [reflexivity|].
      repeat apply selected_stream_cons; exact Hs.
    + intros [c'|] s' [Hc' Hs']; [sat_run|]; auto.
  - sat_step. sat_step.
    eexists; split;
      [unfold hist_step, routed, is_selected; cbn; rewrite Hs, Hr;
       rewrite Z.eqb_refl; reflexivity|cbv beta iota].
    sat_run. split; [reflexivity|].
    repeat apply selected_stream_cons; exact Hs.
Qed.

Lemma routed_main (fuel : nat) (argv : list string) :
  sat (hist_step routed) (main fuel argv) [] (fun _ _ => True).
Proof.
  unfold main. destruct (_ <? 2).
  { unfold_calls. sat_run. exact I. }
  unfold_calls. sat_run.
  destruct (_ =? NULL); [sat_run; exact I|].
  sat_run. eapply sat_weaken.
  { apply routed_for_streams with (a := -1); [reflexivity | lia | reflexivity]. }
  intros o s' (a & id & -> & Hc & Hs). unfold selection in Hs.
  destruct (a <? 0) eqn:Ha.
  { sat_step. sat_step. calm_event. sat_run. exact I. }
  sat_step. sat_step. calm_event. sat_run.
  destruct (_ =? NULL); [sat_run; exact I|].
  sat_run. destruct (negb _); [sat_run; exact I|].
  sat_step. eapply sat_weaken.
  { apply routed_decode_loop with (a := a); [reflexivity|].
    repeat apply selected_stream_cons; exact Hs. }
  intros [c|] s'' [Hc' Hs']; [|exact I].
  sat_step. sat_step. calm_event. sat_run. exact I.
Qed.

End Routing.

Lemma rev_eq_cons {A} (l h : list A) (x : A) :
  rev l = x :: h -> l = rev h ++ [x].
Proof.
  intros H. rewrite <- (rev_involutive l), H. reflexivity.
Qed.

Section RoutingClaim.

Context {World : Type} {lib : TaoLib World}.

(** C3: in every run of [main], a call of [tao_codec_send_packet] comes
    right after the call of [tao_packet_stream_index] on the same packet,
    and the index that call returned is the selected audio stream, the
    first stream the library reported as audio; and when
    [tao_packet_stream_index] returns another index, the next call is
    [tao_packet_free] on that packet.  [pre] holds the calls made before
    call [e]. *)
Theorem packets_routed_by_stream_index (fuel : nat) (argv : list string)
  (w : World) (pre post : trace) (e : event) :
  run_trace (main fuel argv w) = pre ++ e :: post ->
  (forall d p r,
      e = Ev_tao_codec_send_packet d p r ->
      exists pre' idx,
        pre = pre' ++ [Ev_tao_packet_stream_index p idx] /\
        selected_stream (rev pre) = Some idx) /\
  (forall pre' p idx,
      pre = pre' ++ [Ev_tao_packet_stream_index p idx] ->
      selected_stream (rev pre) <> Some idx ->
      e = Ev_tao_packet_free p).
Proof.
  intros E.
  destruct (routed_main fuel argv w) as (s & H & _).
  apply hist_passes in H. destruct H as [_ H].
  specialize (H pre e post E). split.
  - intros d p r ->. unfold routed in H.
    destruct (rev pre) as [|x h] eqn:R; [discriminate|].
    destruct x; try discriminate.
    unfold is_selected in H.
    destruct (selected_stream _) as [a|] eqn:S; [|discriminate].
    destruct (Z.eqb_spec r0 a) as [->|]; [|discriminate].
    apply Z.eqb_eq in H. subst pkt.
    apply rev_eq_cons in R. eauto.
  - intros pre' p idx -> Hsel. rewrite rev_app_distr in H, Hsel.
    cbn [rev app] in H, Hsel. unfold routed, is_selected in H.
    destruct (selected_stream _) as [a|] eqn:S.
    + destruct (Z.eqb_spec idx a) as [->|]; [congruence|].
      destruct e; try discriminate. apply Z.eqb_eq in H. congruence.
    + destruct e; try discriminate. apply Z.eqb_eq in H. congruence.
Qed.

End RoutingClaim.

(** ** Frames are drained before the next read *)

Section Draining.

Context {World : Type} {lib : TaoLib World}.






End Draining.

(** ** The decoder is opened with fixed parameters *)

Lemma open_fixed_settled (h : trace) (e : event) :
  settled h = true -> is_open e = false -> open_fixed h e = true.
Proof.
  destruct h as [|[] h]; simpl; try discriminate;
    destruct e; simpl; intros; try reflexivity; discriminate.
Qed.

Ltac settled_event :=
  eexists; split;
  [unfold hist_step; rewrite open_fixed_settled by (assumption || reflexivity);
   reflexivity
  |cbv beta iota].

Section FixedParameters.

Context {World : Type} {lib : TaoLib World}.

Lemma open_for_streams (n : nat) :
  forall fmt_ctx i a id s,
    settled s = true ->
    sat (hist_step open_fixed) (for_streams n fmt_ctx i a id) s
        (fun o s' => o <> None /\ settled s' = true).
Proof.
  induction n as [|n IH]; intros fmt_ctx i a id s Hs; simpl.
  - apply sat_pure. split; [discriminate | exact Hs].
  - unfold_calls. sat_step. sat_step. settled_event. sat_run.
    sat_if; apply IH; reflexivity.
Qed.

Lemma open_receive_loop (fuel : nat) (dec_ctx : ptr) :
  forall c s,
    settled s = true ->
    sat (hist_step open_fixed) (while_1 fuel (receive_body dec_ctx) c) s
        (fun _ s' => settled s' = true).
Proof.
  intros c s Hs.
  apply sat_while_1 with (I := fun _ s' => settled s' = true); auto.
  clear c s Hs. intros v s Hs. unfold receive_body. unfold_calls.
  sat_step. sat_step. destruct r as [ret frame]. settled_event.
  sat_if; [sat_run; reflexivity|].
  sat_if; [sat_run; reflexivity|].
  sat_run. sat_if.
  - sat_run. sat_if; sat_run; reflexivity.
  - sat_run. reflexivity.
Qed.

Lemma open_decode_loop (fuel fuel' : nat) (fmt_ctx dec_ctx : ptr) (a : Z) :
  forall c s,
    settled s = true ->
    sat (hist_step open_fixed)
        (while_1 fuel (decode_body fuel' fmt_ctx dec_ctx a) c) s
        (fun _ s' => settled s' = true).
Proof.
  intros c s Hs.
  apply sat_while_1 with (I := fun _ s' => settled s' = true); auto.
  clear c s Hs. intros v s Hs. unfold decode_body. unfold_calls.
  sat_step. sat_step. destruct r as [ret pkt]. settled_event.
  sat_if; [sat_run; reflexivity|].
  sat_if; [sat_run; reflexivity|].
  sat_run. sat_if; [sat_run; reflexivity|].
  sat_run. sat_if; [sat_run; reflexivity|].
  sat_step. eapply sat_weaken; [apply open_receive_loop; reflexivity|].
  intros [c'|] s' Hs'; [sat_run|]; exact Hs'.
Qed.

Lemma open_main (fuel : nat) (argv : list string) :
  sat (hist_step open_fixed) (main fuel argv) [] (fun _ _ => True).
Proof.
  unfold main. sat_if.
  { unfold_calls. sat_run. exact I. }
  unfold_calls. sat_run.
  sat_if; [sat_run; exact I|].
  sat_run. eapply sat_weaken; [apply open_for_streams; reflexivity|].
  intros [[a id]|] s' [Hn Hs]; [|congruence].
  sat_if.
  { sat_step. sat_step. settled_event. sat_run. exact I. }
  sat_step. sat_step. settled_event. sat_run.
  sat_if as Hd.
  { sat_step. sat_step. hist_event. sat_run. exact I. }
  sat_step. sat_step. hist_event.
  sat_if; [sat_run; exact I|].
  sat_step. eapply sat_weaken; [apply open_decode_loop; reflexivity|].
  intros [c|] s'' Hs''; [|exact I].
  sat_step. sat_step. settled_event. sat_run. exact I.
Qed.

(** C10: in every run of [main], whatever the library reports about the
    streams, a call of [tao_codec_open_decoder] has sample rate 44100,
    2 channels, [NULL] extra data of size 0 and opens the decoder that
    the call just before it created; and a decoder that has been created
    is opened that way by the next call.  [pre] holds the calls made
    before call [e]. *)
Theorem decoder_opened_with_fixed_parameters (fuel : nat)
  (argv : list string) (w : World) (pre post : trace) (e : event) :
  run_trace (main fuel argv w) = pre ++ e :: post ->
  (forall ctx sample_rate channels extra_data size r,
      e = Ev_tao_codec_open_decoder ctx sample_rate channels extra_data
            size r ->
      sample_rate = 44100 /\ channels = 2 /\ extra_data = NULL /\
      size = 0 /\
      exists pre' codec_id,
        pre = pre' ++ [Ev_tao_codec_create_decoder codec_id ctx]) /\
  (forall pre' codec_id d,
      pre = pre' ++ [Ev_tao_codec_create_decoder codec_id d] ->
      d <> NULL ->
      exists r, e = Ev_tao_codec_open_decoder d 44100 2 NULL 0 r).
Proof.
  intros E.
  destruct (open_main fuel argv w) as (s & H & _).
  apply hist_passes in H. destruct H as [_ H].
  specialize (H pre e post E). split.
  - intros ctx sample_rate channels extra_data size r ->.
    unfold open_fixed in H.
    destruct (rev pre) as [|x h] eqn:R; [discriminate|].
    destruct x; try discriminate.
    destruct (r0 =? NULL); [discriminate|].
    cbn [is_fixed_open] in H.
    repeat (apply andb_prop in H; destruct H as [H ?]).
    repeat match goal with
           | H : (_ =? _) = true |- _ => apply Z.eqb_eq in H
           end.
    subst. apply rev_eq_cons in R. eauto 10.
  - intros pre' codec_id d -> Hd. rewrite rev_app_distr in H.
    cbn [rev app] in H. unfold open_fixed in H.
    apply Z.eqb_neq in Hd. rewrite Hd in H.
    destruct e; try discriminate. cbn [is_fixed_open] in H.
    repeat (apply andb_prop in H; destruct H as [H ?]).
    repeat match goal with
           | H : (_ =? _) = true |- _ => apply Z.eqb_eq in H
           end.
    subst. eauto.
Qed.

End FixedParameters.

(** ** No timestamp reaches a frame *)

Section Timestamps.

Context {World : Type} {lib : TaoLib World}.

Lemma stamp_for_streams (n : nat) :
  forall fmt_ctx i a id s,
    frame_in_hand s = None ->
    sat (hist_step no_timestamp) (for_streams n fmt_ctx i a id) s
        (fun o s' => o <> None /\ frame_in_hand s' = None).
Proof.
  induction n as [|n IH]; intros fmt_ctx i a id s Hs; simpl.
  - apply sat_pure. split; [discriminate | exact Hs].
  - unfold_calls. sat_step. sat_step. sat_event.
    sat_step. sat_step. sat_event. sat_step. sat_step. hist_event.
    sat_if; apply IH; exact Hs.
Qed.

Lemma stamp_receive_loop (fuel : nat) (dec_ctx : ptr) :
  forall c s,
    frame_in_hand s = None ->
    sat (hist_step no_timestamp) (while_1 fuel (receive_body dec_ctx) c) s
        (fun _ s' => frame_in_hand s' = None).
Proof.
  intros c s Hs.
  apply sat_while_1 with (I := fun _ s' => frame_in_hand s' = None); auto.
  clear c s Hs. intros v s Hs. unfold receive_body. unfold_calls.
  sat_step. sat_step. destruct r as [ret frame]. cbn [fst snd]. sat_event.
  destruct (Z.eqb_spec ret TAO_OK) as [->|Hret];
    [destruct (frame =? NULL) eqn:Hframe|].
  - cbn. sat_run. cbn. rewrite Hframe. exact Hs.
  - cbn [Z.eqb TAO_OK TAO_EOF TAO_NEED_MORE_DATA negb orb].
    sat_run. sat_if.
    + sat_run. sat_if.
      * sat_step. hist_event. sat_run. reflexivity.
      * sat_run. reflexivity.
    + sat_run. reflexivity.
  - apply Z.eqb_neq in Hret.
    sat_if; [sat_run; cbn; rewrite Hret; exact Hs|].
    cbn [negb orb]. sat_run. cbn. rewrite Hret. exact Hs.
Qed.

Lemma stamp_decode_loop (fuel fuel' : nat) (fmt_ctx dec_ctx : ptr) (a : Z) :
  forall c s,
    frame_in_hand s = None ->
    sat (hist_step no_timestamp)
        (while_1 fuel (decode_body fuel' fmt_ctx dec_ctx a) c) s
        (fun _ s' => frame_in_hand s' = None).
Proof.
  intros c s Hs.
  apply sat_while_1 with (I := fun _ s' => frame_in_hand s' = None); auto.
  clear c s Hs. intros v s Hs. unfold decode_body. unfold_calls.
  sat_step. sat_step. destruct r as [ret pkt]. sat_event.
  sat_if; [sat_step; sat_step; hist_event; sat_run; exact Hs|].
  sat_if; [sat_step; sat_step; hist_event; sat_run; exact Hs|].
  sat_run. sat_if; [sat_run; exact Hs|].
  sat_run. sat_if; [sat_run; exact Hs|].
  sat_step. eapply sat_weaken; [apply stamp_receive_loop; exact Hs|].
  intros [c'|] s' Hs'; [sat_run|]; exact Hs'.
Qed.

Lemma stamp_main (fuel : nat) (argv : list string) :
  sat (hist_step no_timestamp) (main fuel argv) [] (fun _ _ => True).
Proof.
  unfold main. sat_if.
  { unfold_calls. sat_run. exact I. }
  unfold_calls. sat_run.
  sat_if; [sat_run; exact I|].
  sat_run. eapply sat_weaken; [apply stamp_for_streams; reflexivity|].
  intros [[a id]|] s' [Hn Hs]; [|congruence].
  sat_if.
  { sat_step. sat_step. hist_event. sat_run. exact I. }
  sat_step. sat_step. hist_event. sat_run.
  sat_if; [sat_step; sat_step; hist_event; sat_run; exact I|].
  sat_run.
  sat_if; [sat_step; sat_step; hist_event; sat_run; exact I|].
  sat_step. eapply sat_weaken; [apply stamp_decode_loop; exact Hs|].
  intros [c|] s'' Hs''; [|exact I].
  repeat (sat_step; sat_step; hist_event).
  sat_run. exact I.
Qed.

End Timestamps.

Lemma is_frame_line_inv (n r : Z) (e : event) :
  is_frame_line n r e = true ->
  exists k, e = Ev_printf frame_line [PInt k; PInt n; PInt r].
Proof.
  destruct e; try discriminate. cbn.
  destruct args as [|[k|] [|[n'|] [|[r'|] [|]]]]; try discriminate.
  intros H.
  apply andb_prop in H. destruct H as [H Hr].
  apply andb_prop in H. destruct H as [Hf Hn].
  apply String.eqb_eq in Hf. apply Z.eqb_eq in Hn, Hr. subst.
  exists k. reflexivity.
Qed.

(** ** Contexts are closed and the library is shut down *)

Lemma life_balance (t : trace) :
  forall s s',
    run_monitor life_step s t = Some s' ->
    (count is_shutdown t + downs s = downs s' /\
     count is_format_open t + open_formats s =
     count is_format_close t + open_formats s' /\
     count is_codec_create t + open_codecs s =
     count is_codec_close t + open_codecs s')%nat.
Proof.
  unfold count.
  induction t as [|e t IH]; intros s s' H.
  - injection H as <-. simpl. lia.
  - simpl in H. destruct (life_step s e) as [s1|] eqn:E; [|discriminate].
    apply IH in H. clear IH.
    destruct e; destruct s as [|[f|] [d|]|]; cbn in E; try discriminate;
      unfold created in E;
      repeat match type of E with
             | context [if ?b then _ else _] => destruct b eqn:?
             end;
      try discriminate; injection E as <-; cbn in H |- *;
      rewrite_facts; cbn; lia.
Qed.

Ltac life_event :=
  eexists; split;
  [unfold created; cbn; rewrite_eqs; cbn; rewrite ?Z.eqb_refl; reflexivity
  |cbv beta iota].

Section Life.

Context {World : Type} {lib : TaoLib World}.

Lemma life_for_streams (n : nat) :
  forall fmt_ctx i a id f d,
    sat life_step (for_streams n fmt_ctx i a id) (Up f d)
        (fun o s' => o <> None /\ s' = Up f d).
Proof.
  induction n as [|n IH]; intros; simpl.
  - apply sat_pure. split; [discriminate | reflexivity].
  - unfold_calls. sat_run. sat_if; apply IH.
Qed.

Lemma life_receive_loop (fuel : nat) (dec_ctx : ptr) :
  forall c f d,
    sat life_step (while_1 fuel (receive_body dec_ctx) c) (Up f d)
        (fun _ s' => s' = Up f d).
Proof.
  intros c f d.
  apply sat_while_1 with (I := fun _ s' => s' = Up f d); auto.
  intros v s ->. unfold receive_body. unfold_calls.
  sat_step. sat_step. destruct r as [ret frame]. sat_event.
  sat_if; [sat_run; reflexivity|].
  sat_if; [sat_run; reflexivity|].
  sat_run. sat_if.
  - sat_run. sat_if; sat_run; reflexivity.
  - sat_run. reflexivity.
Qed.

Lemma life_decode_loop (fuel fuel' : nat) (fmt_ctx dec_ctx : ptr) (a : Z) :
  forall c f d,
    sat life_step (while_1 fuel (decode_body fuel' fmt_ctx dec_ctx a) c)
        (Up f d) (fun _ s' => s' = Up f d).
Proof.
  intros c f d.
  apply sat_while_1 with (I := fun _ s' => s' = Up f d); auto.
  intros v s ->. unfold decode_body. unfold_calls.
  sat_step. sat_step. destruct r as [ret pkt]. sat_event.
  sat_if; [sat_run; reflexivity|].
  sat_if; [sat_run; reflexivity|].
  sat_run. sat_if; [sat_run; reflexivity|].
  sat_run. sat_if; [sat_run; reflexivity|].
  sat_step. eapply sat_weaken; [apply life_receive_loop|].
  intros [c'|] s' ->; [sat_run|]; reflexivity.
Qed.

Lemma life_main (fuel : nat) (argv : list string) :
  sat life_step (main fuel argv) Fresh
      (fun o s' =>
         o <> None -> s' = life_at_exit (Z.of_nat (List.length argv))).
Proof.
  unfold main, life_at_exit. sat_if as Hargc.
  { unfold_calls. sat_run. reflexivity. }
  unfold_calls. sat_run.
  sat_if as Hfmt.
  { sat_run. life_event. sat_run. reflexivity. }
  sat_run. eapply sat_weaken; [apply life_for_streams|].
  intros [[a id]|] s' [Hn ->]; [|congruence]. unfold created. rewrite Hfmt.
  sat_if.
  { sat_run. life_event. sat_run. reflexivity. }
  sat_run. sat_if as Hdec.
  { sat_run. life_event. sat_step. sat_step. life_event.
    sat_run. reflexivity. }
  sat_run. unfold created. rewrite Hdec. sat_if.
  { sat_run. life_event. sat_step. sat_step. life_event.
    sat_run. reflexivity. }
  sat_step. eapply sat_weaken; [apply life_decode_loop|].
  intros [c|] s'' ->; [|congruence].
  sat_run. life_event. sat_step. sat_step. life_event.
  sat_run. reflexivity.
Qed.

End Life.

Section LifeClaim.

Context {World : Type} {lib : TaoLib World}.

(** C9: in every run of [main], the calls respect the life of the
    library: no library call before [tao_init], a context is closed only
    if it is open and at most one context of each kind is open,
    [tao_shutdown] is called only when no context is open, and no call
    follows it.  When [main] has returned, with [argc < 2] the library has
    not been called at all, and otherwise it has been shut down, by the
    one call of [tao_shutdown]; the calls of [tao_format_close] and
    [tao_codec_close] are as many as the contexts that
    [tao_format_open_input] and [tao_codec_create_decoder] gave. *)
Theorem contexts_closed_then_shutdown (fuel : nat) (argv : list string)
  (w : World) :
  exists s,
    run_monitor life_step Fresh (run_trace (main fuel argv w)) = Some s /\
    (run_value (main fuel argv w) <> None ->
     s = life_at_exit (Z.of_nat (List.length argv)) /\
     count is_shutdown (run_trace (main fuel argv w)) =
       (if Z.of_nat (List.length argv) <? 2 then 0%nat else 1%nat) /\
     count is_format_close (run_trace (main fuel argv w)) =
       count is_format_open (run_trace (main fuel argv w)) /\
     count is_codec_close (run_trace (main fuel argv w)) =
       count is_codec_create (run_trace (main fuel argv w))).
Proof.
  destruct (life_main fuel argv w) as (s & H & Hend).
  exists s. split; [exact H|]. intros Hv. specialize (Hend Hv).
  apply life_balance in H. subst s. unfold life_at_exit in *.
  destruct (_ <? 2); cbn in H; repeat split; lia.
Qed.

End LifeClaim.

(** ** The outcomes of a read, and a refused submission *)

(** The first call of a turn of the decode loop. *)
Ltac turn_start H :=
  cbn [while_1]; unfold decode_body, tao_format_read_packet;
  unfold bind at 1; unfold bind at 1; unfold call at 1;
  rewrite H; cbn [fst snd].

Section OneTurn.

Context {World : Type} {lib : TaoLib World}.

(** C2: the decode loop tells three outcomes of
    [tao_format_read_packet] apart.  On [TAO_EOF] the loop ends there,
    with the counters as they were, after writing the end-of-file line
    to the standard output and nothing to the standard error.  On
    another status that is not [TAO_OK], or on [TAO_OK] without a
    packet, the loop ends there after writing the read-error line and
    the status to the standard error.  On [TAO_OK] with a packet the loop
    goes on and asks the packet for its stream index. *)
Theorem read_outcomes_told_apart (fuel fuel' : nat) (fmt_ctx dec_ctx : ptr)
  (a : Z) (c : counters) (w w1 : World) (r : Z) (p : ptr) :
  extern_tao_format_read_packet fmt_ctx w = (r, p, w1) ->
  match outcome_of_read r p with
  | EndOfStream =>
      while_1 (S fuel) (decode_body fuel' fmt_ctx dec_ctx a) c w =
      ([Ev_tao_format_read_packet fmt_ctx r p;
        Ev_printf "到达文件末尾\n" []], w1, Some c)
  | ReadError =>
      while_1 (S fuel) (decode_body fuel' fmt_ctx dec_ctx a) c w =
      ([Ev_tao_format_read_packet fmt_ctx r p;
        Ev_fprintf_stderr "读取数据包错误: %d\n" [PInt r]], w1, Some c)
  | Success =>
      exists idx t w' o,
        while_1 (S fuel) (decode_body fuel' fmt_ctx dec_ctx a) c w =
        (Ev_tao_format_read_packet fmt_ctx r p ::
         Ev_tao_packet_stream_index p idx :: t, w', o)
  end.
Proof.
  intros H. unfold outcome_of_read.
  destruct (r =? TAO_EOF) eqn:Eeof;
    [|destruct ((r =? TAO_OK) && negb (p =? NULL)) eqn:Eok].
  - turn_start H. rewrite Eeof. reflexivity.
  - turn_start H. rewrite Eeof.
    apply andb_prop in Eok. destruct Eok as [Eok Enull].
    apply negb_true_iff in Enull. rewrite Eok, Enull. cbn [negb orb].
    unfold bind at 1. unfold tao_packet_stream_index, call at 1.
    destruct (extern_tao_packet_stream_index p w1) as [idx w2].
    match goal with
    | |- context [(if negb (idx =? a) then ?x else ?y) w2] =>
        destruct ((if negb (idx =? a) then x else y) w2) as [[t2 w3] o2]
    end.
    destruct o2 as [[[|] c']|]; cbn.
    + match goal with
      | |- context [while_1 fuel ?b c' w3] =>
          destruct (while_1 fuel b c' w3) as [[t4 w4] o4]
      end.
      do 4 eexists. reflexivity.
    + do 4 eexists. reflexivity.
    + do 4 eexists. reflexivity.
  - turn_start H. rewrite Eeof.
    replace (negb (r =? TAO_OK) || (p =? NULL)) with true; [reflexivity|].
    destruct (r =? TAO_OK); [|reflexivity].
    destruct (p =? NULL); [reflexivity | discriminate].
Qed.

End OneTurn.

Section RefusedSubmission.

Context {World : Type} {lib : TaoLib World}.


End RefusedSubmission.

(** ** The decoder after a refused submission *)




Section RefusedSubmissionClaim.

Context {World : Type} {lib : TaoLib World}.


End RefusedSubmissionClaim.

(** ** The end of stream of the demuxer *)

Lemma skipn_at {A} (l : list A) :
  forall c x, nth_error l c = Some x -> skipn c l = x :: skipn (S c) l.
Proof.
  induction l as [|y l IH]; intros [|c] x H; try discriminate.
  - injection H as ->. reflexivity.
  - cbn in H. apply IH in H. exact H.
Qed.

Lemma skipn_past {A} (l : list A) :
  forall c, nth_error l c = None -> skipn c l = [].
Proof.
  induction l as [|y l IH]; intros [|c] H; try reflexivity.
  - discriminate.
  - apply (IH c H).
Qed.

Lemma read_many_at_end (skip : bool) (n : nat) (ctx : Demuxer.FormatContext) :
  nth_error (Demuxer.units ctx) (Demuxer.cursor ctx) = None ->
  Demuxer.read_many skip n ctx = repeat Demuxer.EndOfStream n.
Proof.
  intros H. induction n as [|n IH]; [reflexivity|].
  cbn. unfold Demuxer.read_packet. rewrite H. rewrite IH. reflexivity.
Qed.

Lemma delivered_repeat_end (n k : nat) :
  Demuxer.delivered (firstn k (repeat Demuxer.EndOfStream n)) = [].
Proof.
  revert k. induction n as [|n IH]; intros [|k]; try reflexivity.
  cbn. apply IH.
Qed.

Lemma end_of_stream_from (skip : bool) (n : nat) :
  forall ctx k,
    nth_error (Demuxer.read_many skip n ctx) k = Some Demuxer.EndOfStream ->
    Demuxer.delivered (firstn k (Demuxer.read_many skip n ctx)) =
      Demuxer.stored (skipn (Demuxer.cursor ctx) (Demuxer.units ctx)) /\
    forall j, (k <= j < n)%nat ->
      nth_error (Demuxer.read_many skip n ctx) j = Some Demuxer.EndOfStream.
Proof.
  induction n as [|n IH]; intros ctx k H.
  - destruct k; discriminate.
  - cbn [Demuxer.read_many] in H |- *.
    unfold Demuxer.read_packet in H |- *.
    destruct (nth_error (Demuxer.units ctx) (Demuxer.cursor ctx))
      as [[p|]|] eqn:E.
    + destruct k as [|k]; [discriminate|]. cbn in H.
      apply IH in H. destruct H as [Hd Hj]. split.
      * cbn. rewrite Hd. rewrite (skipn_at _ _ _ E). reflexivity.
      * intros [|j] Hk; [lia|]. cbn. apply Hj. lia.
    + destruct k as [|k]; [discriminate|]. cbn in H.
      apply IH in H. destruct H as [Hd Hj]. split.
      * cbn [firstn Demuxer.delivered]. rewrite Hd.
        destruct skip; [|reflexivity].
        rewrite (skipn_at _ _ _ E). reflexivity.
      * intros [|j] Hk; [lia|]. cbn. apply Hj. lia.
    + rewrite (read_many_at_end skip n ctx E).
      change (Demuxer.EndOfStream :: repeat Demuxer.EndOfStream n)
        with (repeat Demuxer.EndOfStream (S n)).
      split.
      * rewrite delivered_repeat_end, (skipn_past _ _ E). reflexivity.
      * intros j Hk. apply nth_error_repeat. lia.
Qed.

(** C6: on a FormatContext just opened, if one of [n] successive calls
    of [read_packet] signals [EndOfStream], then the calls before it have
    delivered all the packets the container stores, in storage order,
    and every later call signals [EndOfStream] again; this holds whether
    or not a failed read moves past the unit it could not read. *)
Theorem end_of_stream_is_last_and_final (skip : bool)
  (table : list (Z * Z)) (content : list Demuxer.storage) (n k : nat) :
  nth_error (Demuxer.read_many skip n (Demuxer.open table content)) k =
    Some Demuxer.EndOfStream ->
  Demuxer.delivered
    (firstn k (Demuxer.read_many skip n (Demuxer.open table content))) =
    Demuxer.stored content /\
  forall j, (k <= j < n)%nat ->
    nth_error (Demuxer.read_many skip n (Demuxer.open table content)) j =
      Some Demuxer.EndOfStream.
Proof.
  intros H. apply end_of_stream_from in H. exact H.
Qed.

(* ================================================================== *)
(** * More facts about [main] *)

(** ** Nothing is read or decoded once reading is over *)

(** Stepping with the event tactic of a monitor. *)
Ltac on_event tac :=
  lazymatch goal with
  | |- ex _ => eexists; split; [tac | cbv beta iota]
  end.

Ltac sat_go ev := repeat (first [sat_step | ev]).

Ltac stop_event :=
  idtac; on_event ltac:(unfold hist_step, stops_ok; cbn; rewrite_eqs; cbn;
                 reflexivity).

(** An event that winds down, whatever the history. *)
Ltac wind_event :=
  idtac; on_event ltac:(unfold hist_step, stops_ok;
                 match goal with
                 | |- context [reading_over ?h] => destruct (reading_over h)
                 end; reflexivity).

Section Stopping.

Context {World : Type} {lib : TaoLib World}.

Lemma stop_for_streams (n : nat) :
  forall fmt_ctx i a id s,
    reading_over s = false ->
    sat (hist_step stops_ok) (for_streams n fmt_ctx i a id) s
        (fun o s' => o <> None /\ reading_over s' = false).
Proof.
  induction n as [|n IH]; intros fmt_ctx i a id s Hs; simpl.
  - apply sat_pure. split; [discriminate | exact Hs].
  - unfold_calls. sat_go stop_event.
    sat_if; apply IH; exact Hs.
Qed.

Lemma stop_receive_loop (fuel : nat) (dec_ctx : ptr) :
  forall c s,
    reading_over s = false ->
    sat (hist_step stops_ok) (while_1 fuel (receive_body dec_ctx) c) s
        (fun _ s' => reading_over s' = false).
Proof.
  intros c s Hs.
  apply sat_while_1 with (I := fun _ s' => reading_over s' = false); auto.
  clear c s Hs. intros v s Hs. unfold receive_body. unfold_calls.
  sat_step. sat_step. destruct r as [ret frame]. stop_event.
  sat_if; [sat_go stop_event; exact Hs|].
  sat_if; [sat_go stop_event; exact Hs|].
  sat_go stop_event. sat_if.
  - sat_go stop_event. sat_if; sat_go stop_event; exact Hs.
  - sat_go stop_event. exact Hs.
Qed.

Lemma stop_decode_loop (fuel fuel' : nat) (fmt_ctx dec_ctx : ptr) (a : Z) :
  forall c s,
    reading_over s = false ->
    sat (hist_step stops_ok)
        (while_1 fuel (decode_body fuel' fmt_ctx dec_ctx a) c) s
        (fun _ _ => True).
Proof.
  intros c s Hs.
  apply sat_while_1 with (I := fun _ s' => reading_over s' = false); auto.
  clear c s Hs. intros v s Hs. unfold decode_body. unfold_calls.
  sat_step. sat_step. destruct r as [ret pkt]. cbn [fst snd]. stop_event.
  sat_if as E1; [sat_go wind_event; exact I|].
  sat_if as E2; [sat_go wind_event; exact I|].
  assert (Hs1 : reading_over
                  (Ev_tao_format_read_packet fmt_ctx ret pkt :: s) = false).
  { apply orb_false_elim in E2. destruct E2 as [E2 E3].
    apply negb_false_iff in E2.
    cbn. unfold outcome_of_read. rewrite E1, E2, E3. reflexivity. }
  remember (Ev_tao_format_read_packet fmt_ctx ret pkt :: s) as s1 eqn:Es1.
  clear Es1 Hs E1 E2.
  sat_go stop_event. sat_if; [sat_go stop_event; exact Hs1|].
  sat_go stop_event. sat_if; [sat_go stop_event; exact Hs1|].
  sat_step. eapply sat_weaken; [apply stop_receive_loop; exact Hs1|].
  intros [c'|] s' Hs'; [sat_go stop_event; exact Hs' | exact I].
Qed.

Lemma stop_main (fuel : nat) (argv : list string) :
  sat (hist_step stops_ok) (main fuel argv) [] (fun _ _ => True).
Proof.
  unfold main. sat_if.
  { unfold_calls. sat_go stop_event. exact I. }
  unfold_calls. sat_go stop_event.
  sat_if; [sat_go stop_event; exact I|].
  sat_go stop_event. eapply sat_weaken; [apply stop_for_streams; reflexivity|].
  intros [[a id]|] s' [Hn Hs]; [|congruence].
  sat_if; [sat_go stop_event; exact I|].
  sat_go stop_event.
  sat_if; [sat_go stop_event; exact I|].
  sat_go stop_event.
  sat_if; [sat_go stop_event; exact I|].
  sat_step. eapply sat_weaken; [apply stop_decode_loop; exact Hs|].
  intros [c|] s'' _; [|exact I].
  sat_go wind_event. exact I.
Qed.

(** X1: in every run of [main], once a call of
    [tao_format_read_packet] has returned anything but [TAO_OK] with a
    packet, the calls that follow are output, [tao_codec_close],
    [tao_format_close] and [tao_shutdown] only: no further read, no
    submission, no receive, and no call on a packet, so a packet that
    such a read may have left is not freed.  [pre] holds the calls made
    before call [e]. *)
Theorem nothing_read_after_the_last_read (fuel : nat) (argv : list string)
  (w : World) (pre post : trace) (e : event) :
  run_trace (main fuel argv w) = pre ++ e :: post ->
  reading_over (rev pre) = true ->
  winds_down e = true.
Proof.
  intros E Hover.
  destruct (stop_main fuel argv w) as (s & H & _).
  apply hist_passes in H. destruct H as [_ H].
  specialize (H pre e post E). unfold stops_ok in H.
  rewrite Hover in H. exact H.
Qed.

End Stopping.

(** ** Every call is made on the context that is open *)

Ltac handle_event :=
  idtac;
  on_event ltac:(unfold hist_step, handles_ok; cbn; unfold created;
                 rewrite_eqs; cbn; rewrite ?Z.eqb_refl; cbn; reflexivity).

Lemma created_not_null (r c : ptr) : created r = Some c -> c <> NULL.
Proof.
  unfold created. destruct (r =? NULL) eqn:E; [discriminate|].
  intros [= <-]. apply Z.eqb_neq. exact E.
Qed.

Lemma open_format_not_null (h : trace) (c : ptr) :
  open_format h = Some c -> c <> NULL.
Proof.
  induction h as [|e h IH]; [discriminate|].
  destruct e; cbn; try exact IH; try discriminate.
  apply created_not_null.
Qed.

Lemma open_codec_not_null (h : trace) (d : ptr) :
  open_codec h = Some d -> d <> NULL.
Proof.
  induction h as [|e h IH]; [discriminate|].
  destruct e; cbn; try exact IH; try discriminate.
  apply created_not_null.
Qed.

Lemma is_handle_eq (o : option ptr) (c : ptr) :
  is_handle o c = true -> o = Some c.
Proof.
  destruct o as [c'|]; [|discriminate]. cbn. intros H.
  apply Z.eqb_eq in H. congruence.
Qed.

Section Handles.

Context {World : Type} {lib : TaoLib World}.

Lemma handles_for_streams (n : nat) :
  forall fmt_ctx i a id s,
    open_format s = Some fmt_ctx ->
    sat (hist_step handles_ok) (for_streams n fmt_ctx i a id) s
        (fun o s' => o <> None /\ open_format s' = Some fmt_ctx /\
                     open_codec s' = open_codec s).
Proof.
  induction n as [|n IH]; intros fmt_ctx i a id s Hs; simpl.
  - apply sat_pure. split; [discriminate | auto].
  - unfold_calls. sat_go handle_event.
    sat_if; (eapply sat_weaken; [apply IH; cbn; exact Hs|]);
      intros o s' (Ho & Hf & Hc); auto.
Qed.

Lemma handles_receive_loop (fuel : nat) (fmt_ctx dec_ctx : ptr) :
  forall c s,
    open_format s = Some fmt_ctx -> open_codec s = Some dec_ctx ->
    sat (hist_step handles_ok) (while_1 fuel (receive_body dec_ctx) c) s
        (fun _ s' => open_format s' = Some fmt_ctx /\
                     open_codec s' = Some dec_ctx).
Proof.
  intros c s Hf Hc.
  apply sat_while_1
    with (I := fun _ s' => open_format s' = Some fmt_ctx /\
                           open_codec s' = Some dec_ctx); auto.
  clear c s Hf Hc. intros v s [Hf Hc]. unfold receive_body. unfold_calls.
  sat_step. sat_step. destruct r as [ret frame]. handle_event.
  sat_if; [sat_go handle_event; auto|].
  sat_if; [sat_go handle_event; auto|].
  sat_go handle_event. sat_if.
  - sat_go handle_event. sat_if; sat_go handle_event; auto.
  - sat_go handle_event. auto.
Qed.

Lemma handles_decode_loop (fuel fuel' : nat) (fmt_ctx dec_ctx : ptr)
  (a : Z) :
  forall c s,
    open_format s = Some fmt_ctx -> open_codec s = Some dec_ctx ->
    sat (hist_step handles_ok)
        (while_1 fuel (decode_body fuel' fmt_ctx dec_ctx a) c) s
        (fun _ s' => open_format s' = Some fmt_ctx /\
                     open_codec s' = Some dec_ctx).
Proof.
  intros c s Hf Hc.
  apply sat_while_1
    with (I := fun _ s' => open_format s' = Some fmt_ctx /\
                           open_codec s' = Some dec_ctx); auto.
  clear c s Hf Hc. intros v s [Hf Hc]. unfold decode_body. unfold_calls.
  sat_step. sat_step. destruct r as [ret pkt]. handle_event.
  sat_if; [sat_go handle_event; auto|].
  sat_if; [sat_go handle_event; auto|].
  sat_go handle_event. sat_if; [sat_go handle_event; auto|].
  sat_go handle_event. sat_if; [sat_go handle_event; auto|].
  sat_step. eapply sat_weaken;
    [apply handles_receive_loop with (fmt_ctx := fmt_ctx); cbn; assumption|].
  intros [c'|] s' [Hf' Hc']; [sat_go handle_event|]; auto.
Qed.

Lemma handles_main (fuel : nat) (argv : list string) :
  sat (hist_step handles_ok) (main fuel argv) [] (fun _ _ => True).
Proof.
  unfold main. sat_if.
  { unfold_calls. sat_go handle_event. exact I. }
  unfold_calls. sat_go handle_event.
  sat_if as Hfmt; [sat_go handle_event; exact I|].
  sat_go handle_event. eapply sat_weaken.
  { apply handles_for_streams. cbn. unfold created. rewrite Hfmt.
    reflexivity. }
  intros [[a id]|] s' (Hn & Hf & Hc); [|congruence]. cbn in Hc.
  sat_if; [sat_go handle_event; exact I|].
  sat_go handle_event.
  sat_if as Hdec; [sat_go handle_event; exact I|].
  sat_go handle_event.
  sat_if; [sat_go handle_event; exact I|].
  sat_step. eapply sat_weaken.
  { apply handles_decode_loop; cbn; unfold created;
      rewrite ?Hdec; assumption || reflexivity. }
  intros [c|] s'' [Hf' Hc']; [|exact I].
  sat_go handle_event. exact I.
Qed.

(** X2: in every run of [main], a call on a format context is made on
    the context that [tao_format_open_input] gave and that has not been
    closed since, and a call on a decoder on the decoder that
    [tao_codec_create_decoder] gave and that has not been closed since;
    so no call is made on a null context or on a closed one.  [pre]
    holds the calls made before call [e]. *)
Theorem calls_are_made_on_open_contexts (fuel : nat) (argv : list string)
  (w : World) (pre post : trace) (e : event) :
  run_trace (main fuel argv w) = pre ++ e :: post ->
  (forall c,
      format_handle e = Some c ->
      open_format (rev pre) = Some c /\ c <> NULL) /\
  (forall d,
      codec_handle e = Some d ->
      open_codec (rev pre) = Some d /\ d <> NULL).
Proof.
  intros E.
  destruct (handles_main fuel argv w) as (s & H & _).
  apply hist_passes in H. destruct H as [_ H].
  specialize (H pre e post E). unfold handles_ok in H.
  apply andb_prop in H. destruct H as [Hf Hc]. split.
  - intros c Hc'. rewrite Hc' in Hf. apply is_handle_eq in Hf.
    split; [exact Hf | exact (open_format_not_null _ _ Hf)].
  - intros d Hd. rewrite Hd in Hc. apply is_handle_eq in Hc.
    split; [exact Hc | exact (open_codec_not_null _ _ Hc)].
Qed.

End Handles.

(** ** The steps on a frame *)

Lemma frame_steps_idle (h : trace) (e : event) :
  frame_idle h = true -> is_frame_question e = false ->
  frame_steps h e = true.
Proof.
  intros Hh He. unfold frame_steps. rewrite He.
  destruct h as [|x h]; [reflexivity|].
  destruct x; try reflexivity; cbn in Hh; try discriminate.
  apply negb_true_iff in Hh. rewrite Hh. reflexivity.
Qed.

Ltac frame_event :=
  idtac;
  on_event ltac:(unfold hist_step;
                 first [rewrite frame_steps_idle
                          by (assumption || reflexivity)
                       |unfold frame_steps; cbn; rewrite_eqs; cbn;
                        rewrite ?Z.eqb_refl; cbn];
                 reflexivity).

Section FrameSteps.

Context {World : Type} {lib : TaoLib World}.

Lemma steps_for_streams (n : nat) :
  forall fmt_ctx i a id s,
    frame_idle s = true ->
    sat (hist_step frame_steps) (for_streams n fmt_ctx i a id) s
        (fun o s' => o <> None /\ frame_idle s' = true).
Proof.
  induction n as [|n IH]; intros fmt_ctx i a id s Hs; simpl.
  - apply sat_pure. split; [discriminate | exact Hs].
  - unfold_calls. sat_go frame_event.
    sat_if; apply IH; reflexivity.
Qed.

Lemma steps_receive_loop (fuel : nat) (dec_ctx : ptr) :
  forall c s,
    frame_idle s = true ->
    sat (hist_step frame_steps) (while_1 fuel (receive_body dec_ctx) c) s
        (fun _ s' => frame_idle s' = true).
Proof.
  intros c s Hs.
  apply sat_while_1 with (I := fun _ s' => frame_idle s' = true); auto.
  clear c s Hs. intros v s Hs. unfold receive_body. unfold_calls.
  sat_step. sat_step. destruct r as [ret frame]. cbn [fst snd].
  frame_event.
  destruct (Z.eqb_spec ret TAO_OK) as [->|Hret];
    [destruct (frame =? NULL) eqn:Hframe|].
  - cbn. sat_go frame_event. cbn. rewrite Hframe. reflexivity.
  - cbn [Z.eqb TAO_OK TAO_EOF TAO_NEED_MORE_DATA negb orb].
    sat_step. sat_step. frame_event.
    destruct (r =? 0) eqn:Er; cbn [negb];
      sat_go frame_event; [reflexivity|].
    sat_if; sat_go frame_event; reflexivity.
  - apply Z.eqb_neq in Hret.
    sat_if; [sat_go frame_event; cbn; rewrite Hret; reflexivity|].
    cbn [negb orb]. sat_go frame_event. cbn. rewrite Hret. reflexivity.
Qed.

Lemma steps_decode_loop (fuel fuel' : nat) (fmt_ctx dec_ctx : ptr) (a : Z) :
  forall c s,
    frame_idle s = true ->
    sat (hist_step frame_steps)
        (while_1 fuel (decode_body fuel' fmt_ctx dec_ctx a) c) s
        (fun _ s' => frame_idle s' = true).
Proof.
  intros c s Hs.
  apply sat_while_1 with (I := fun _ s' => frame_idle s' = true); auto.
  clear c s Hs. intros v s Hs. unfold decode_body. unfold_calls.
  sat_step. sat_step. destruct r as [ret pkt]. frame_event.
  sat_if; [sat_go frame_event; reflexivity|].
  sat_if; [sat_go frame_event; reflexivity|].
  sat_go frame_event. sat_if; [sat_go frame_event; reflexivity|].
  sat_go frame_event. sat_if; [sat_go frame_event; reflexivity|].
  sat_step. eapply sat_weaken; [apply steps_receive_loop; reflexivity|].
  intros [c'|] s' Hs'; [sat_go frame_event|]; exact Hs'.
Qed.

Lemma steps_main (fuel : nat) (argv : list string) :
  sat (hist_step frame_steps) (main fuel argv) [] (fun _ _ => True).
Proof.
  unfold main. sat_if.
  { unfold_calls. sat_go frame_event. exact I. }
  unfold_calls. sat_go frame_event.
  sat_if; [sat_go frame_event; exact I|].
  sat_go frame_event.
  eapply sat_weaken; [apply steps_for_streams; reflexivity|].
  intros [[a id]|] s' [Hn Hs]; [|congruence].
  sat_if; [sat_go frame_event; exact I|].
  sat_go frame_event.
  sat_if; [sat_go frame_event; exact I|].
  sat_go frame_event.
  sat_if; [sat_go frame_event; exact I|].
  sat_step. eapply sat_weaken; [apply steps_decode_loop; reflexivity|].
  intros [c|] s'' Hs''; [|exact I].
  sat_go frame_event. exact I.
Qed.

(** X3: in every run of [main], the call after a receive that gave a
    frame is [tao_frame_is_audio] on that frame; when that answers 0 the
    next call is [tao_frame_free] on the frame, which is neither measured
    nor counted, and when it answers anything else the next two calls are
    [tao_frame_nb_samples] and [tao_frame_sample_rate] on the frame.
    [pre] holds the calls made before call [e]. *)
Theorem frame_is_asked_in_order (fuel : nat) (argv : list string)
  (w : World) (pre post : trace) (e : event) :
  run_trace (main fuel argv w) = pre ++ e :: post ->
  (forall pre' d f,
      pre = pre' ++ [Ev_tao_codec_receive_frame d TAO_OK f] ->
      f <> NULL ->
      exists r, e = Ev_tao_frame_is_audio f r) /\
  (forall pre' f r,
      pre = pre' ++ [Ev_tao_frame_is_audio f r] ->
      if r =? 0 then e = Ev_tao_frame_free f
      else exists n, e = Ev_tao_frame_nb_samples f n) /\
  (forall pre' f n,
      pre = pre' ++ [Ev_tao_frame_nb_samples f n] ->
      exists r, e = Ev_tao_frame_sample_rate f r).
Proof.
  intros E.
  destruct (steps_main fuel argv w) as (s & H & _).
  apply hist_passes in H. destruct H as [_ H].
  specialize (H pre e post E). repeat split.
  - intros pre' d f -> Hf. rewrite rev_app_distr in H. cbn in H.
    apply Z.eqb_neq in Hf. rewrite Hf in H. cbn in H.
    destruct e; try discriminate. apply Z.eqb_eq in H. subst. eauto.
  - intros pre' f r ->. rewrite rev_app_distr in H. cbn in H.
    destruct (r =? 0); destruct e; try discriminate;
      apply Z.eqb_eq in H; subst; eauto.
  - intros pre' f n ->. rewrite rev_app_distr in H. cbn in H.
    destruct e; try discriminate. apply Z.eqb_eq in H. subst. eauto.
Qed.

End FrameSteps.

(** ** The scan of the streams *)

Lemma streams_asked_nonneg (h : trace) : 0 <= streams_asked h.
Proof.
  induction h as [|e h IH]; cbn; [lia|]. destruct e; lia.
Qed.

Ltac scan_event :=
  idtac;
  on_event ltac:(unfold hist_step, scan_ok; cbn; rewrite_eqs; cbn;
                 rewrite ?Z.eqb_refl; cbn; reflexivity).

Section Scan.

Context {World : Type} {lib : TaoLib World}.

Lemma scan_for_streams (n : nat) :
  forall fmt_ctx i a id s cnt,
    stream_count_answer s = Some cnt ->
    streams_asked s = i ->
    0 <= i <= Z.max 0 cnt ->
    Z.of_nat n = Z.max 0 (cnt - i) ->
    selected_stream s = selection a ->
    (0 <= a -> codec_answer a s = Some id /\ a < i) ->
    sat (hist_step scan_ok) (for_streams n fmt_ctx i a id) s
        (fun o s' =>
           exists a' id',
             o = Some (a', id') /\
             stream_count_answer s' = Some cnt /\
             streams_asked s' = Z.max 0 cnt /\
             selected_stream s' = selection a' /\
             (0 <= a' ->
              codec_answer a' s' = Some id' /\ a' < Z.max 0 cnt)).
Proof.
  induction n as [|n IH];
    intros fmt_ctx i a id s cnt Hc Ha Hi Hn Hs Hcod; simpl.
  - apply sat_pure. exists a, id. repeat split; auto; try lia;
      match goal with H : 0 <= a |- _ => destruct (Hcod H) end;
      auto; lia.
  - assert (Hlt : (i <? cnt) = true) by (apply Z.ltb_lt; lia).
    unfold_calls. sat_go scan_event.
    destruct (Z.eqb_spec r TAO_MEDIA_TYPE_AUDIO) as [->|Hr];
      [destruct (a <? 0) eqn:Ha0|]; cbn [andb].
    + apply IH with (cnt := cnt); cbn; try rewrite Ha; auto; try lia.
      * rewrite Hs. unfold selection. rewrite Ha0.
        destruct (Z.ltb_spec i 0); [lia | reflexivity].
      * intros _. rewrite Z.eqb_refl. split; [reflexivity | lia].
    + apply IH with (cnt := cnt); cbn; try rewrite Ha; auto; try lia.
      * rewrite Hs. unfold selection. rewrite Ha0. reflexivity.
      * intros H. destruct (Hcod H) as [H1 H2].
        replace (i =? a) with false by (symmetry; apply Z.eqb_neq; lia).
        split; [exact H1 | lia].
    + apply IH with (cnt := cnt); cbn; try rewrite Ha; auto; try lia.
      * rewrite Hs. destruct (selection a); [reflexivity|].
        apply Z.eqb_neq in Hr. rewrite Hr. reflexivity.
      * intros H. destruct (Hcod H) as [H1 H2].
        replace (i =? a) with false by (symmetry; apply Z.eqb_neq; lia).
        split; [exact H1 | lia].
Qed.

Lemma scan_receive_loop (fuel : nat) (dec_ctx : ptr) :
  forall c s,
    sat (hist_step scan_ok) (while_1 fuel (receive_body dec_ctx) c) s
        (fun _ _ => True).
Proof.
  intros c s.
  apply sat_while_1 with (I := fun _ _ => True); auto.
  clear c s. intros v s _. unfold receive_body. unfold_calls.
  sat_step. sat_step. destruct r as [ret frame]. scan_event.
  sat_if; [sat_go scan_event; exact I|].
  sat_if; [sat_go scan_event; exact I|].
  sat_go scan_event. sat_if.
  - sat_go scan_event. sat_if; sat_go scan_event; exact I.
  - sat_go scan_event. exact I.
Qed.

Lemma scan_decode_loop (fuel fuel' : nat) (fmt_ctx dec_ctx : ptr) (a : Z) :
  forall c s,
    sat (hist_step scan_ok)
        (while_1 fuel (decode_body fuel' fmt_ctx dec_ctx a) c) s
        (fun _ _ => True).
Proof.
  intros c s.
  apply sat_while_1 with (I := fun _ _ => True); auto.
  clear c s. intros v s _. unfold decode_body. unfold_calls.
  sat_step. sat_step. destruct r as [ret pkt]. scan_event.
  sat_if; [sat_go scan_event; exact I|].
  sat_if; [sat_go scan_event; exact I|].
  sat_go scan_event. sat_if; [sat_go scan_event; exact I|].
  sat_go scan_event. sat_if; [sat_go scan_event; exact I|].
  sat_step. eapply sat_weaken; [apply scan_receive_loop|].
  intros [c'|] s' _; [sat_go scan_event|]; exact I.
Qed.

Lemma scan_main (fuel : nat) (argv : list string) :
  sat (hist_step scan_ok) (main fuel argv) [] (fun _ _ => True).
Proof.
  unfold main. sat_if.
  { unfold_calls. sat_go scan_event. exact I. }
  unfold_calls. sat_go scan_event.
  sat_if; [sat_go scan_event; exact I|].
  sat_go scan_event.
  eapply sat_weaken.
  { apply scan_for_streams with (cnt := r2); try reflexivity; lia. }
  intros o s' (a & id & -> & Hc & Ha & Hs & Hcod).
  sat_if as Ea; [sat_go scan_event; exact I|].
  unfold selection in Hs. rewrite Ea in Hs.
  assert (H0 : 0 <= a) by (apply Z.ltb_ge; exact Ea).
  destruct (Hcod H0) as [Hid Hlt].
  assert (Hcnt : Z.max 0 r2 = r2) by lia. rewrite Hcnt in Ha.
  sat_go scan_event.
  sat_if; [sat_go scan_event; exact I|].
  sat_go scan_event.
  sat_if; [sat_go scan_event; exact I|].
  sat_step. eapply sat_weaken; [apply scan_decode_loop|].
  intros [c|] s'' _; [|exact I].
  sat_go scan_event. exact I.
Qed.

(** X4: in every run of [main], [tao_format_get_stream_media_type] is
    asked of the streams in order: its index is the number of streams
    asked before, from 0, and is below the count that
    [tao_format_get_stream_count] answered; a call of
    [tao_format_get_stream_codec_id] comes right after the media type of
    the same stream has been asked; and when the decoder is created all
    the streams have been asked, also those after the selected one.
    [pre] holds the calls made before call [e]. *)
Theorem streams_are_asked_in_order (fuel : nat) (argv : list string)
  (w : World) (pre post : trace) (e : event) :
  run_trace (main fuel argv w) = pre ++ e :: post ->
  (forall ctx i r,
      e = Ev_tao_format_get_stream_media_type ctx i r ->
      exists n,
        stream_count_answer (rev pre) = Some n /\
        i = streams_asked (rev pre) /\ 0 <= i < n) /\
  (forall ctx i r,
      e = Ev_tao_format_get_stream_codec_id ctx i r ->
      exists pre' media_type,
        pre = pre' ++ [Ev_tao_format_get_stream_media_type ctx i media_type]) /\
  (forall codec_id d,
      e = Ev_tao_codec_create_decoder codec_id d ->
      exists n,
        stream_count_answer (rev pre) = Some n /\
        streams_asked (rev pre) = n).
Proof.
  intros E.
  destruct (scan_main fuel argv w) as (s & H & _).
  apply hist_passes in H. destruct H as [_ H].
  specialize (H pre e post E). unfold scan_ok in H. repeat split.
  - intros ctx i r ->.
    destruct (stream_count_answer (rev pre)) as [n|]; [|discriminate].
    apply andb_prop in H. destruct H as [H1 H2].
    apply Z.eqb_eq in H1. apply Z.ltb_lt in H2.
    exists n. repeat split; auto.
    rewrite H1. apply streams_asked_nonneg.
  - intros ctx i r ->.
    destruct (rev pre) as [|x h] eqn:R; [discriminate|].
    destruct x; try discriminate.
    apply andb_prop in H. destruct H as [H1 H2].
    apply Z.eqb_eq in H1, H2. subst.
    apply rev_eq_cons in R. eauto.
  - intros codec_id d ->.
    destruct (stream_count_answer (rev pre)) as [n|]; [|discriminate].
    destruct (selected_stream (rev pre)) as [a|]; [|discriminate].
    apply andb_prop in H. destruct H as [H1 _].
    apply Z.eqb_eq in H1. eauto.
Qed.

(** X5: in every run of [main], the decoder is created for the codec
    that [tao_format_get_stream_codec_id] answered for the selected
    stream, the first stream reported as audio; no decoder is created
    when no stream is audio.  [pre] holds the calls made before call
    [e]. *)
Theorem decoder_created_for_selected_stream (fuel : nat)
  (argv : list string) (w : World) (pre post : trace) (e : event)
  (codec_id : Z) (d : ptr) :
  run_trace (main fuel argv w) = pre ++ e :: post ->
  e = Ev_tao_codec_create_decoder codec_id d ->
  exists a,
    selected_stream (rev pre) = Some a /\
    codec_answer a (rev pre) = Some codec_id.
Proof.
  intros E ->.
  destruct (scan_main fuel argv w) as (s & H & _).
  apply hist_passes in H. destruct H as [_ H].
  specialize (H pre _ post E). unfold scan_ok in H.
  destruct (stream_count_answer (rev pre)) as [n|]; [|discriminate].
  destruct (selected_stream (rev pre)) as [a|]; [|discriminate].
  apply andb_prop in H. destruct H as [_ H].
  destruct (codec_answer a (rev pre)) as [id|] eqn:Hid; [|discriminate].
  apply Z.eqb_eq in H. subst id. exists a. split; [reflexivity | exact Hid].
Qed.

End Scan.

(** ** What is counted *)

Lemma wrap_add (bits x y : Z) :
  wrap bits (wrap bits x + y) = wrap bits (x + y).
Proof.
  unfold wrap.
  replace ((x + 2 ^ (bits - 1)) mod 2 ^ bits - 2 ^ (bits - 1) + y +
           2 ^ (bits - 1))
    with ((x + 2 ^ (bits - 1)) mod 2 ^ bits + y) by ring.
  rewrite Zplus_mod_idemp_l.
  replace (x + 2 ^ (bits - 1) + y) with (x + y + 2 ^ (bits - 1)) by ring.
  reflexivity.
Qed.

Lemma int_incr_wrap (x : Z) : int_incr (wrap 32 x) = wrap 32 (x + 1).
Proof. apply wrap_add. Qed.

Lemma int64_add_wrap (x y : Z) : int64_add (wrap 64 x) y = wrap 64 (x + y).
Proof. apply wrap_add. Qed.

(** A count that fits an [int] is printed as it is. *)
Lemma wrap_32_small (x : Z) : 0 <= x < 2147483648 -> wrap 32 x = x.
Proof.
  intros H. unfold wrap.
  change (2 ^ (32 - 1)) with 2147483648.
  change (2 ^ 32) with 4294967296.
  rewrite Z.mod_small by lia. lia.
Qed.

Lemma counted_unrated (h : trace) (e : event) :
  unrated h = true -> counted h e = stats_ok h e.
Proof.
  destruct h as [|x h]; [reflexivity|].
  destruct x; try reflexivity. discriminate.
Qed.


Lemma is_numbered_frame_line_inv (k n r : Z) (e : event) :
  is_numbered_frame_line k n r e = true ->
  e = Ev_printf frame_line [PInt k; PInt n; PInt r].
Proof.
  destruct e; try discriminate. cbn.
  destruct args as [|[k'|] [|[n'|] [|[r'|] [|]]]]; try discriminate.
  intros H.
  repeat (apply andb_prop in H; destruct H as [H ?]).
  apply String.eqb_eq in H.
  repeat match goal with
         | H : (_ =? _) = true |- _ => apply Z.eqb_eq in H
         end.
  subst. reflexivity.
Qed.


Ltac count_event :=
  idtac;
  on_event ltac:(unfold hist_step;
                 first [rewrite counted_unrated
                          by (assumption || reflexivity);
                        unfold stats_ok
                       |unfold counted];
                 unfold packets_line, frames_line, samples_line, frame_line;
                 cbn -[wrap]; rewrite_eqs; cbn -[wrap];
                 rewrite ?Z.eqb_refl; cbn -[wrap]; reflexivity).

Section Counting.

Context {World : Type} {lib : TaoLib World}.

Lemma count_for_streams (n : nat) :
  forall fmt_ctx i a id s,
    unrated s = true ->
    sat (hist_step counted) (for_streams n fmt_ctx i a id) s
        (fun o s' => o <> None /\ unrated s' = true /\
                     sends s' = sends s /\
                     audio_frames s' = audio_frames s /\
                     samples s' = samples s).
Proof.
  induction n as [|n IH]; intros fmt_ctx i a id s Hs; simpl.
  - apply sat_pure. split; [discriminate | auto].
  - unfold_calls. sat_go count_event.
    sat_if; (eapply sat_weaken; [apply IH; reflexivity|]);
      intros o s' H; exact H.
Qed.

Lemma count_receive_loop (fuel : nat) (dec_ctx : ptr) :
  forall c s,
    counters_follow c s ->
    sat (hist_step counted) (while_1 fuel (receive_body dec_ctx) c) s
        (fun o s' => forall c', o = Some c' -> counters_follow c' s').
Proof.
  intros c s Hs.
  apply sat_while_1 with (I := counters_follow);
    [intros; discriminate | | exact Hs].
  clear c s Hs. intros v s (Hu & Hp & Hf & Ht).
  unfold receive_body. unfold_calls.
  sat_step. sat_step. destruct r as [ret frame]. cbn [fst snd].
  count_event.
  sat_if.
  { sat_go count_event. intros c' [= <-]. repeat split; assumption. }
  sat_if.
  { sat_go count_event. intros c' [= <-]. repeat split; assumption. }
  sat_step. sat_step. count_event.
  destruct (r =? 0) eqn:Er; cbn [negb].
  { sat_go count_event. repeat split; cbn; rewrite ?Er; assumption. }
  sat_step. sat_step. sat_step. count_event.
  sat_step. sat_step. count_event.
  cbn [frame_count packet_count total_samples].
  rewrite Hf, Ht, int_incr_wrap, int64_add_wrap.
  sat_step.
  sat_if as Ek; sat_go count_event;
    (repeat split; cbn -[wrap]; rewrite ?Er; auto).
Qed.

Lemma count_decode_loop (fuel fuel' : nat) (fmt_ctx dec_ctx : ptr) (a : Z) :
  forall c s,
    counters_follow c s ->
    sat (hist_step counted)
        (while_1 fuel (decode_body fuel' fmt_ctx dec_ctx a) c) s
        (fun o s' => forall c', o = Some c' -> counters_follow c' s').
Proof.
  intros c s Hs.
  apply sat_while_1 with (I := counters_follow);
    [intros; discriminate | | exact Hs].
  clear c s Hs. intros v s (Hu & Hp & Hf & Ht).
  unfold decode_body. unfold_calls.
  sat_step. sat_step. destruct r as [ret pkt]. cbn [fst snd].
  count_event.
  sat_if.
  { sat_go count_event. intros c' [= <-]. repeat split; assumption. }
  sat_if.
  { sat_go count_event. intros c' [= <-]. repeat split; assumption. }
  sat_go count_event.
  sat_if.
  { sat_go count_event. repeat split; assumption. }
  sat_go count_event.
  assert (Hc : counters_follow
                 {| packet_count := int_incr (packet_count v);
                    frame_count := frame_count v;
                    total_samples := total_samples v |}
                 (Ev_tao_packet_free pkt ::
                  Ev_tao_codec_send_packet dec_ctx pkt r0 ::
                  Ev_tao_packet_stream_index pkt r ::
                  Ev_tao_format_read_packet fmt_ctx ret pkt :: s)).
  { repeat split; cbn -[wrap]; auto.
    rewrite Hp. apply int_incr_wrap. }
  sat_if; [sat_go count_event; exact Hc|].
  sat_step. eapply sat_weaken; [apply count_receive_loop; exact Hc|].
  intros [c'|] s' H; [sat_go count_event; apply H; reflexivity|].
  intros c' [=].
Qed.

Lemma count_main (fuel : nat) (argv : list string) :
  sat (hist_step counted) (main fuel argv) [] (fun _ _ => True).
Proof.
  unfold main. sat_if.
  { unfold_calls. sat_go count_event. exact I. }
  unfold_calls. sat_go count_event.
  sat_if; [sat_go count_event; exact I|].
  sat_go count_event.
  eapply sat_weaken; [apply count_for_streams; reflexivity|].
  intros [[a id]|] s' (Hn & Hu & Hs & Hf & Ht); [|congruence].
  cbn in Hs, Hf, Ht.
  sat_if; [sat_go count_event; exact I|].
  sat_go count_event.
  sat_if; [sat_go count_event; exact I|].
  sat_go count_event.
  sat_if; [sat_go count_event; exact I|].
  sat_step. eapply sat_weaken.
  { apply count_decode_loop. repeat split; cbn -[wrap]; rewrite ?Hs, ?Hf, ?Ht;
      reflexivity. }
  intros [c|] s'' H; [|exact I].
  destruct (H c eq_refl) as (Hu' & Hp' & Hf' & Ht').
  sat_go count_event. exact I.
Qed.

End Counting.

Section CountingFacts.

Context {World : Type} {lib : TaoLib World}.


(** X7: in every run of [main], once an audio frame has given its
    sample count and its sample rate, its line is written if the number
    of audio frames so far, this one included and reduced to the range
    of an [int], is at most 5, with that number, the sample count and
    the sample rate as arguments; otherwise the next call frees the
    frame.  [pre] holds the calls made before call [e]. *)
Theorem frame_line_for_the_first_five (fuel : nat) (argv : list string)
  (w : World) (pre pre' post : trace) (e : event) (f f' : ptr)
  (nb sr : Z) :
  run_trace (main fuel argv w) = pre ++ e :: post ->
  pre = pre' ++ [Ev_tao_frame_nb_samples f' nb;
                 Ev_tao_frame_sample_rate f sr] ->
  if wrap 32 (audio_frames (rev pre)) <=? 5 then
    e = Ev_printf frame_line
          [PInt (wrap 32 (audio_frames (rev pre))); PInt nb; PInt sr]
  else e = Ev_tao_frame_free f.
Proof.
  intros E Hpre.
  destruct (count_main fuel argv w) as (s & H & _).
  apply hist_passes in H. destruct H as [_ H].
  specialize (H pre e post E).
  assert (R : rev pre = Ev_tao_frame_sample_rate f sr ::
                        Ev_tao_frame_nb_samples f' nb :: rev pre').
  { rewrite Hpre, rev_app_distr. reflexivity. }
  rewrite R in H |- *. unfold counted in H.
  destruct (_ <=? 5).
  - apply is_numbered_frame_line_inv in H. exact H.
  - destruct e; try discriminate. apply Z.eqb_eq in H. congruence.
Qed.

End CountingFacts.

(** ** The frame line carries no timestamp *)

Section TimestampClaim.

Context {World : Type} {lib : TaoLib World}.

(** C8, as amended: in every run of [main], no call is
    [tao_packet_pts], so the program never holds a timestamp; and what
    it writes while a frame is in hand is the frame line, whose
    arguments are the frame counter, that is the number of audio frames
    so far, this one included and reduced to the range of an [int], and
    the sample count and sample rate the two calls just before returned
    for that frame, and whose timestamp field is the fixed text
    [(PTS: -)].  [pre] holds the calls made before call [e]. *)
Theorem no_timestamp_reaches_a_frame (fuel : nat) (argv : list string)
  (w : World) (pre post : trace) (e : event) :
  run_trace (main fuel argv w) = pre ++ e :: post ->
  (forall p r, e <> Ev_tao_packet_pts p r) /\
  (forall f,
      frame_in_hand (rev pre) = Some f ->
      is_output e = true ->
      exists n r pre',
        e = Ev_printf frame_line
              [PInt (wrap 32 (audio_frames (rev pre))); PInt n; PInt r] /\
        pre = pre' ++ [Ev_tao_frame_nb_samples f n;
                       Ev_tao_frame_sample_rate f r]).
Proof.
  intros E.
  destruct (stamp_main fuel argv w) as (s & H & _).
  apply hist_passes in H. destruct H as [_ H].
  specialize (H pre e post E).
  destruct (count_main fuel argv w) as (s' & C & _).
  apply hist_passes in C. destruct C as [_ C].
  specialize (C pre e post E). split.
  - intros p r ->. discriminate.
  - intros f Hf Ho. unfold no_timestamp in H. rewrite Hf in H.
    assert (H' :
      match rev pre with
      | Ev_tao_frame_sample_rate f2 r :: Ev_tao_frame_nb_samples f1 n :: _ =>
          (f1 =? f) && (f2 =? f) && is_frame_line n r e
      | _ => false
      end = true)
      by (destruct e; try discriminate; exact H).
    clear H.
    destruct (rev pre) as [|x [|y h]] eqn:R; try discriminate;
      destruct x; try discriminate.
    destruct y; try discriminate.
    apply andb_prop in H'. destruct H' as [H' Hl].
    apply andb_prop in H'. destruct H' as [H1 H2].
    apply Z.eqb_eq in H1, H2. subst.
    apply is_frame_line_inv in Hl. destruct Hl as [k ->].
    unfold counted in C.
    destruct (_ <=? 5); [|discriminate].
    apply is_numbered_frame_line_inv in C. injection C as ->.
    exists r0, r, (rev h). split; [reflexivity|].
    apply rev_eq_cons in R. rewrite R. cbn [rev].
    rewrite <- app_assoc. reflexivity.
Qed.

End TimestampClaim.

(** ** What a run reports *)

Lemma report_run (t : trace) :
  forall s,
    run_monitor report_step s t =
    Some (fst s || existsb is_open_ok t,
          (snd s + count is_error_line t)%nat).
Proof.
  unfold count.
  induction t as [|e t IH]; intros [b n]; cbn.
  - rewrite orb_false_r, Nat.add_0_r. reflexivity.
  - rewrite IH. cbn.
    destruct (is_open_ok e), (is_error_line e); cbn;
      rewrite ?orb_true_r, ?Nat.add_succ_r; reflexivity.
Qed.

Section Report.

Context {World : Type} {lib : TaoLib World}.

Lemma report_for_streams (n : nat) :
  forall fmt_ctx i a id s,
    sat report_step (for_streams n fmt_ctx i a id) s
        (fun o s' => o <> None /\ s' = s).
Proof.
  induction n as [|n IH]; intros; simpl.
  - apply sat_pure. split; [discriminate | reflexivity].
  - unfold_calls. sat_run. destruct s as [b k]. sat_if; apply IH.
Qed.

Lemma report_receive_loop (fuel : nat) (dec_ctx : ptr) :
  forall c s,
    sat report_step (while_1 fuel (receive_body dec_ctx) c) s
        (fun _ s' => s' = s).
Proof.
  intros c [b k].
  apply sat_while_1 with (I := fun _ s' => s' = (b, k)); auto.
  intros v s ->. unfold receive_body. unfold_calls.
  sat_step. sat_step. destruct r as [ret frame]. sat_event.
  sat_if; [sat_run; reflexivity|].
  sat_if; [sat_run; reflexivity|].
  sat_run. sat_if.
  - sat_run. sat_if; sat_run; reflexivity.
  - sat_run. reflexivity.
Qed.

Lemma report_decode_loop (fuel fuel' : nat) (fmt_ctx dec_ctx : ptr)
  (a : Z) :
  forall c,
    sat report_step
        (while_1 fuel (decode_body fuel' fmt_ctx dec_ctx a) c) (true, 0%nat)
        (fun _ s' => fst s' = true /\ (snd s' <= 1)%nat).
Proof.
  intros c.
  apply sat_while_1 with (I := fun _ s' => s' = (true, 0%nat)).
  - intros v s ->. split; [reflexivity | cbn; lia].
  - intros v s ->. unfold decode_body. unfold_calls.
    sat_step. sat_step. destruct r as [ret pkt]. sat_event.
    sat_if; [sat_run; split; [reflexivity | cbn; lia]|].
    sat_if; [sat_run; split; [reflexivity | cbn; lia]|].
    sat_run. sat_if; [sat_run; reflexivity|].
    sat_run. sat_if; [sat_run; reflexivity|].
    sat_step. eapply sat_weaken; [apply report_receive_loop|].
    intros [c'|] s' ->; [sat_run; reflexivity|].
    split; [reflexivity | cbn; lia].
  - reflexivity.
Qed.

Lemma report_main (fuel : nat) (argv : list string) :
  sat report_step (main fuel argv) (false, 0%nat)
      (fun o s' =>
         (snd s' <= 1)%nat /\
         forall code, o = Some code ->
           code = (if fst s' then 0 else 1) /\
           (code = 1 -> 2 <= Z.of_nat (List.length argv) ->
            snd s' = 1%nat)).
Proof.
  unfold main. sat_if as Hargc.
  { unfold_calls. sat_run. split; [cbn; lia|].
    intros code [= <-]. split; [reflexivity|].
    intros _ H. apply Z.ltb_lt in Hargc. lia. }
  unfold_calls. sat_run.
  sat_if.
  { sat_run. split; [cbn; lia|]. intros code [= <-]. auto. }
  sat_run. eapply sat_weaken; [apply report_for_streams|].
  intros [[a id]|] s' [Hn ->]; [|congruence].
  sat_if.
  { sat_run. split; [cbn; lia|]. intros code [= <-]. auto. }
  sat_run. sat_if.
  { sat_run. split; [cbn; lia|]. intros code [= <-]. auto. }
  sat_step. sat_step.
  match goal with
  | |- context [Ev_tao_codec_open_decoder _ _ _ _ _ ?ret] =>
      destruct (ret =? TAO_OK) eqn:Eok
  end;
    (eexists; split;
       [unfold report_step, is_open_ok; rewrite Eok; reflexivity
       |cbv beta iota]);
    cbn [negb].
  2:{ sat_run. split; [cbn; lia|]. intros code [= <-]. auto. }
  sat_step. eapply sat_weaken; [apply report_decode_loop|].
  intros [c|] [b k] [Hb Hk]; cbn in Hb, Hk; subst b.
  - sat_run. split; [cbn; lia|]. intros code [= <-].
    split; [reflexivity | discriminate].
  - split; [cbn; lia|]. intros code [=].
Qed.

(** X8: when [main] returns, it returns 0 if a call of
    [tao_codec_open_decoder] has returned [TAO_OK] and 1 if none has;
    so a run whose reading ended on a read error returns 0 like a run
    that reached the end of the stream. *)
Theorem exit_code_tells_whether_decoder_opened (fuel : nat)
  (argv : list string) (w : World) (code : Z) :
  run_value (main fuel argv w) = Some code ->
  code = if existsb is_open_ok (run_trace (main fuel argv w)) then 0 else 1.
Proof.
  intros Hv.
  destruct (report_main fuel argv w) as (s & H & _ & Hend).
  rewrite report_run in H. injection H as <-. cbn in Hend.
  apply (Hend code Hv).
Qed.

(** X9: a run of [main] writes at most one line to the standard error,
    and a run that was given a file name and returns 1 has written
    exactly one. *)
Theorem at_most_one_error_line (fuel : nat) (argv : list string)
  (w : World) :
  (count is_error_line (run_trace (main fuel argv w)) <= 1)%nat /\
  (run_value (main fuel argv w) = Some 1 ->
   2 <= Z.of_nat (List.length argv) ->
   count is_error_line (run_trace (main fuel argv w)) = 1%nat).
Proof.
  destruct (report_main fuel argv w) as (s & H & Hle & Hend).
  rewrite report_run in H. injection H as <-. cbn in Hle, Hend.
  split; [exact Hle|].
  intros Hv Hargc. apply (Hend 1 Hv); [reflexivity | exact Hargc].
Qed.

End Report.

(** ** The entry points that are not used *)

Ltac use_event :=
  idtac; on_event ltac:(reflexivity).

Section Unused.

Context {World : Type} {lib : TaoLib World}.

Lemma uses_for_streams (n : nat) :
  forall fmt_ctx i a id s,
    sat (hist_step uses_ok) (for_streams n fmt_ctx i a id) s
        (fun o _ => o <> None).
Proof.
  induction n as [|n IH]; intros; simpl.
  - apply sat_pure. discriminate.
  - unfold_calls. sat_go use_event. sat_if; apply IH.
Qed.

Lemma uses_receive_loop (fuel : nat) (dec_ctx : ptr) :
  forall c s,
    sat (hist_step uses_ok) (while_1 fuel (receive_body dec_ctx) c) s
        (fun _ _ => True).
Proof.
  intros c s.
  apply sat_while_1 with (I := fun _ _ => True); auto.
  clear c s. intros v s _. unfold receive_body. unfold_calls.
  sat_step. sat_step. destruct r as [ret frame]. use_event.
  sat_if; [sat_go use_event; exact I|].
  sat_if; [sat_go use_event; exact I|].
  sat_go use_event. sat_if.
  - sat_go use_event. sat_if; sat_go use_event; exact I.
  - sat_go use_event. exact I.
Qed.

Lemma uses_decode_loop (fuel fuel' : nat) (fmt_ctx dec_ctx : ptr) (a : Z) :
  forall c s,
    sat (hist_step uses_ok)
        (while_1 fuel (decode_body fuel' fmt_ctx dec_ctx a) c) s
        (fun _ _ => True).
Proof.
  intros c s.
  apply sat_while_1 with (I := fun _ _ => True); auto.
  clear c s. intros v s _. unfold decode_body. unfold_calls.
  sat_step. sat_step. destruct r as [ret pkt]. use_event.
  sat_if; [sat_go use_event; exact I|].
  sat_if; [sat_go use_event; exact I|].
  sat_go use_event. sat_if; [sat_go use_event; exact I|].
  sat_go use_event. sat_if; [sat_go use_event; exact I|].
  sat_step. eapply sat_weaken; [apply uses_receive_loop|].
  intros [c'|] s' _; [sat_go use_event|]; exact I.
Qed.

Lemma uses_main (fuel : nat) (argv : list string) :
  sat (hist_step uses_ok) (main fuel argv) [] (fun _ _ => True).
Proof.
  unfold main. sat_if.
  { unfold_calls. sat_go use_event. exact I. }
  unfold_calls. sat_go use_event.
  sat_if; [sat_go use_event; exact I|].
  sat_go use_event. eapply sat_weaken; [apply uses_for_streams|].
  intros [[a id]|] s' Hn; [|congruence].
  sat_if; [sat_go use_event; exact I|].
  sat_go use_event.
  sat_if; [sat_go use_event; exact I|].
  sat_go use_event.
  sat_if; [sat_go use_event; exact I|].
  sat_step. eapply sat_weaken; [apply uses_decode_loop|].
  intros [c|] s'' _; [|exact I].
  sat_go use_event. exact I.
Qed.

(** X10: no run of [main] calls any of the nine entry points that are
    declared and not used: it never reads the payload, the size or the
    timestamp of a packet, nor the pixels, the planes or the dimensions
    of a frame, nor the version number. *)
Theorem unused_entry_points_are_never_called (fuel : nat)
  (argv : list string) (w : World) (e : event) :
  In e (run_trace (main fuel argv w)) -> is_unused_entry e = false.
Proof.
  intros Hin. apply in_split in Hin. destruct Hin as (pre & post & E).
  destruct (uses_main fuel argv w) as (s & H & _).
  apply hist_passes in H. destruct H as [_ H].
  specialize (H pre e post E). unfold uses_ok in H.
  apply negb_true_iff in H. exact H.
Qed.

End Unused.

(* ================================================================== *)
(** * Concrete runs *)

(** The end of the file ends the loop, with the end-of-file line. *)
Lemma read_outcomes_told_apart_witness :
  while_1 1 (decode_body (lib := Sim.lib) 0 16 32 1) Sim.no_counts
    (Sim.at_position 3) =
  ([Ev_tao_format_read_packet 16 TAO_EOF NULL;
    Ev_printf "到达文件末尾\n" []], Sim.at_position 3, Some Sim.no_counts).
Proof.
  exact (read_outcomes_told_apart (lib := Sim.lib) 0 0 16 32 1
           Sim.no_counts (Sim.at_position 3) (Sim.at_position 3)
           TAO_EOF NULL eq_refl).
Defined.

(** The third packet is submitted right after its stream index, 1, the
    selected stream, has been asked. *)
Lemma packets_routed_by_stream_index_witness :
  exists pre' idx,
    firstn 28 Sim.run = pre' ++ [Ev_tao_packet_stream_index 258 idx] /\
    selected_stream (rev (firstn 28 Sim.run)) = Some idx.
Proof.
  apply (proj1 (packets_routed_by_stream_index (lib := Sim.lib) 4 Sim.argv
                  Sim.two_streams (firstn 28 Sim.run) (skipn 29 Sim.run)
                  (Ev_tao_codec_send_packet 32 258 0) eq_refl)
           32 258 0 eq_refl).
Defined.




(** On a decoder that does not mark its context broken, [main] obtains
    the frame of the packet that follows the refused one. *)
Example main_on_a_decoder_that_stays_usable :
  Bench.submissions_and_lines false =
  [Ev_tao_codec_send_packet 32 256 TAO_OK;
   Ev_printf frame_line [PInt 1; PInt 1024; PInt 44100];
   Ev_tao_codec_send_packet 32 257 TAO_ERROR;
   Ev_tao_codec_send_packet 32 258 TAO_OK;
   Ev_printf frame_line [PInt 2; PInt 1024; PInt 44100]].
Proof. vm_compute. reflexivity. Qed.

(** On a decoder that marks its context broken, [main] goes on all the
    same, and the well-formed packet that follows is refused too. *)
Example main_on_a_decoder_marked_broken :
  Bench.submissions_and_lines true =
  [Ev_tao_codec_send_packet 32 256 TAO_OK;
   Ev_printf frame_line [PInt 1; PInt 1024; PInt 44100];
   Ev_tao_codec_send_packet 32 257 TAO_ERROR;
   Ev_tao_codec_send_packet 32 258 TAO_ERROR].
Proof. vm_compute. reflexivity. Qed.

(** The line written for frame 512 carries the frame counter, 1, and the
    frame's sample count and rate. *)
Lemma no_timestamp_reaches_a_frame_witness :
  exists n r pre',
    Ev_printf frame_line [PInt 1; PInt 1024; PInt 44100] =
    Ev_printf frame_line
      [PInt (wrap 32 (audio_frames (rev (firstn 34 Sim.run))));
       PInt n; PInt r] /\
    firstn 34 Sim.run =
    pre' ++ [Ev_tao_frame_nb_samples 512 n; Ev_tao_frame_sample_rate 512 r].
Proof.
  apply (proj2 (no_timestamp_reaches_a_frame (lib := Sim.lib) 4 Sim.argv
                  Sim.two_streams (firstn 34 Sim.run) (skipn 35 Sim.run)
                  (Ev_printf frame_line [PInt 1; PInt 1024; PInt 44100])
                  eq_refl)
           512 eq_refl eq_refl).
Defined.

(** The decoder created for codec 86018 is opened at once. *)
Lemma decoder_opened_with_fixed_parameters_witness :
  exists r,
    Ev_tao_codec_open_decoder 32 44100 2 0 0 TAO_OK =
    Ev_tao_codec_open_decoder 32 44100 2 NULL 0 r.
Proof.
  apply (proj2 (decoder_opened_with_fixed_parameters (lib := Sim.lib) 4
                  Sim.argv Sim.two_streams (firstn 18 Sim.run)
                  (skipn 19 Sim.run)
                  (Ev_tao_codec_open_decoder 32 44100 2 0 0 TAO_OK) eq_refl)
           (firstn 17 Sim.run) 86018 32 eq_refl).
  discriminate.
Defined.

(** After the run the library is shut down. *)
Lemma contexts_closed_then_shutdown_witness :
  exists s,
    run_monitor life_step Fresh Sim.run = Some s /\
    (Some 0 <> None ->
     s = Down /\ count is_shutdown Sim.run = 1%nat /\
     count is_format_close Sim.run = count is_format_open Sim.run /\
     count is_codec_close Sim.run = count is_codec_create Sim.run).
Proof.
  exact (contexts_closed_then_shutdown (lib := Sim.lib) 4 Sim.argv
           Sim.two_streams).
Defined.

(** The fourth read of the three-packet file is the end of stream. *)
Lemma end_of_stream_is_last_and_final_witness :
  Demuxer.delivered
    (firstn 3 (Demuxer.read_many true 5 (Sim.container Sim.two_streams))) =
    Demuxer.stored (Demuxer.units (Sim.container Sim.two_streams)) /\
  forall j, (3 <= j < 5)%nat ->
    nth_error (Demuxer.read_many true 5 (Sim.container Sim.two_streams)) j =
      Some Demuxer.EndOfStream.
Proof.
  apply (end_of_stream_is_last_and_final true
           (Demuxer.streams (Sim.container Sim.two_streams))
           (Demuxer.units (Sim.container Sim.two_streams)) 5 3).
  reflexivity.
Defined.

(** On the file of [Sim], packets are obtained and no call asks for a
    timestamp. *)
Lemma pts_never_read_counterexample : ~ pts_read_on_packets Sim.run.
Proof.
  intros H. destruct (H 16 256) as [r Hr].
  - vm_compute. repeat (first [left; reflexivity | right]).
  - discriminate.
  - vm_compute in Hr.
    repeat (destruct Hr as [Hr|Hr]; [discriminate|]). exact Hr.
Qed.

(** The decoder is closed after the read that met the end of the file. *)
Lemma nothing_read_after_the_last_read_witness :
  winds_down (Ev_tao_codec_close 32) = true.
Proof.
  apply (nothing_read_after_the_last_read (lib := Sim.lib) 4 Sim.argv
           Sim.two_streams (firstn 43 Sim.run) (skipn 44 Sim.run)
           (Ev_tao_codec_close 32));
    reflexivity.
Defined.

(** The third read is made on the context that was opened. *)
Lemma calls_are_made_on_open_contexts_witness :
  open_format (rev (firstn 26 Sim.run)) = Some 16 /\ 16 <> NULL.
Proof.
  apply (proj1 (calls_are_made_on_open_contexts (lib := Sim.lib) 4 Sim.argv
                  Sim.two_streams (firstn 26 Sim.run) (skipn 27 Sim.run)
                  (Ev_tao_format_read_packet 16 TAO_OK 258) eq_refl)
           16 eq_refl).
Defined.

(** Frame 512 is audio and is asked its sample count next. *)
Lemma frame_is_asked_in_order_witness :
  if 1 =? 0 then Ev_tao_frame_nb_samples 512 1024 = Ev_tao_frame_free 512
  else exists n,
      Ev_tao_frame_nb_samples 512 1024 = Ev_tao_frame_nb_samples 512 n.
Proof.
  apply (proj1 (proj2 (frame_is_asked_in_order (lib := Sim.lib) 4 Sim.argv
                         Sim.two_streams (firstn 32 Sim.run)
                         (skipn 33 Sim.run)
                         (Ev_tao_frame_nb_samples 512 1024) eq_refl))
           (firstn 31 Sim.run) 512 1 eq_refl).
Defined.

(** The second stream is asked second, of two. *)
Lemma streams_are_asked_in_order_witness :
  exists n,
    stream_count_answer (rev (firstn 13 Sim.run)) = Some n /\
    1 = streams_asked (rev (firstn 13 Sim.run)) /\ 0 <= 1 < n.
Proof.
  apply (proj1 (streams_are_asked_in_order (lib := Sim.lib) 4 Sim.argv
                  Sim.two_streams (firstn 13 Sim.run) (skipn 14 Sim.run)
                  (Ev_tao_format_get_stream_media_type 16 1
                     TAO_MEDIA_TYPE_AUDIO) eq_refl)
           16 1 TAO_MEDIA_TYPE_AUDIO eq_refl).
Defined.

(** The decoder is created for codec 86018, that of stream 1. *)
Lemma decoder_created_for_selected_stream_witness :
  exists a,
    selected_stream (rev (firstn 17 Sim.run)) = Some a /\
    codec_answer a (rev (firstn 17 Sim.run)) = Some 86018.
Proof.
  apply (decoder_created_for_selected_stream (lib := Sim.lib) 4 Sim.argv
           Sim.two_streams (firstn 17 Sim.run) (skipn 18 Sim.run)
           (Ev_tao_codec_create_decoder 86018 32) 86018 32);
    reflexivity.
Defined.


(** The line of the first audio frame is written. *)
Lemma frame_line_for_the_first_five_witness :
  if wrap 32 (audio_frames (rev (firstn 34 Sim.run))) <=? 5 then
    Ev_printf frame_line [PInt 1; PInt 1024; PInt 44100] =
    Ev_printf frame_line
      [PInt (wrap 32 (audio_frames (rev (firstn 34 Sim.run))));
       PInt 1024; PInt 44100]
  else
    Ev_printf frame_line [PInt 1; PInt 1024; PInt 44100] =
    Ev_tao_frame_free 512.
Proof.
  apply (frame_line_for_the_first_five (lib := Sim.lib) 4 Sim.argv
           Sim.two_streams (firstn 34 Sim.run) (firstn 32 Sim.run)
           (skipn 35 Sim.run)
           (Ev_printf frame_line [PInt 1; PInt 1024; PInt 44100])
           512 512 1024 44100);
    reflexivity.
Defined.

(** The run on the file of [Sim] returns 0. *)
Lemma exit_code_tells_whether_decoder_opened_witness :
  0 = if existsb is_open_ok Sim.run then 0 else 1.
Proof.
  apply (exit_code_tells_whether_decoder_opened (lib := Sim.lib) 4 Sim.argv
           Sim.two_streams 0).
  reflexivity.
Defined.

(** A file without audio: one line to the standard error, and 1. *)
Lemma at_most_one_error_line_witness :
  count is_error_line
    (run_trace (main (lib := Sim.lib) 0 Sim.argv video_only)) = 1%nat.
Proof.
  apply (proj2 (at_most_one_error_line (lib := Sim.lib) 0 Sim.argv
                  video_only));
    [reflexivity | vm_compute; discriminate].
Defined.

(** [tao_init] is called, and is not one of the unused entry points. *)
Lemma unused_entry_points_are_never_called_witness :
  is_unused_entry Ev_tao_init = false.
Proof.
  apply (unused_entry_points_are_never_called (lib := Sim.lib) 4 Sim.argv
           Sim.two_streams Ev_tao_init).
  vm_compute. left. reflexivity.
Defined.
